(** * APSVIZ UI data service: the data-access helper and its two endpoints

    A shallow embedding of [src/pg_utils.py] (class [PGUtils]) and of the two
    request handlers of [src/server.py].  The database driver, the clock and
    the file system are an interface ([Driver]) over an abstract world; every
    call through that interface is recorded in a trace, most recent event
    first, so that statements about what was run, and in which order, can be
    read off the final state. *)

From Stdlib Require Import String Ascii List ZArith Lia Bool DecimalString.
Import ListNotations.
Open Scope string_scope.

(** ** Python values and exceptions *)

#[local] Set Warnings "-register-all".

(** The values the modelled code handles: [None], booleans, integers,
    strings, tuples (database rows), lists (what [fetchall] returns, and
    JSON arrays), dictionaries with string keys (JSON objects), and
    objects of a type that is no container (a float, a [Decimal], a
    date): of these the name of the type and the truth value are kept. *)
Inductive pyobj : Type :=
| PyNone
| PyBool (b : bool)
| PyInt (z : Z)
| PyStr (s : string)
| PyTuple (xs : list pyobj)
| PyList (xs : list pyobj)
| PyDict (items : list (string * pyobj))
| PyObject (type_name : string) (truth : bool).

(** A row is the content of a tuple. *)
Definition row : Type := list pyobj.

(** The exceptions of the [Exception] hierarchy that the modelled code can
    meet; each carries its message ([str(e)]).  All of them are caught by
    [except Exception]. *)
Inductive exn : Type :=
| TypeError (msg : string)
| IndexError (msg : string)
| AttributeError (msg : string)
| DatabaseError (msg : string)
| OSError (msg : string)
| KeyError (msg : string)
| ValueError (msg : string).

Definition exn_str (e : exn) : string :=
  match e with
  | TypeError m | IndexError m | AttributeError m
  | DatabaseError m | OSError m | KeyError m | ValueError m => m
  end.

Inductive result (A : Type) : Type :=
| Ok (a : A)
| Err (e : exn).
Arguments Ok {A} a.
Arguments Err {A} e.

(** Truth value of an object, as [if x:] and [not x] compute it. *)
Definition truthy (o : pyobj) : bool :=
  match o with
  | PyNone => false
  | PyBool b => b
  | PyInt z => negb (z =? 0)%Z
  | PyStr s => negb (String.length s =? 0)%nat
  | PyTuple xs | PyList xs => negb (length xs =? 0)%nat
  | PyDict items => negb (length items =? 0)%nat
  | PyObject _ truth => truth
  end.

(** [str(z)] for an integer. *)
Definition string_of_Z (z : Z) : string :=
  NilZero.string_of_int (Z.to_int z).

(** [o[i]] for a non-negative index. *)
Definition py_getitem (o : pyobj) (i : nat) : result pyobj :=
  match o with
  | PyNone => Err (TypeError "'NoneType' object is not subscriptable")
  | PyBool _ => Err (TypeError "'bool' object is not subscriptable")
  | PyInt _ => Err (TypeError "'int' object is not subscriptable")
  | PyStr s =>
      match String.get i s with
      | Some c => Ok (PyStr (String c EmptyString))
      | None => Err (IndexError "string index out of range")
      end
  | PyTuple xs =>
      match nth_error xs i with
      | Some x => Ok x
      | None => Err (IndexError "tuple index out of range")
      end
  | PyList xs =>
      match nth_error xs i with
      | Some x => Ok x
      | None => Err (IndexError "list index out of range")
      end
  | PyDict _ => Err (KeyError (string_of_Z (Z.of_nat i)))
  | PyObject type_name _ =>
      Err (TypeError ("'" ++ type_name ++ "' object is not subscriptable"))
  end.

(** How an f-string renders a value that is a string or [None]. *)
Definition fmt_opt (x : option string) : string :=
  match x with
  | Some s => s
  | None => "None"
  end.

(** How an f-string renders a value that is an integer or [None]. *)
Definition fmt_int (x : option Z) : string :=
  match x with
  | Some z => string_of_Z z
  | None => "None"
  end.

(** ** The world outside: driver, clock, file system *)

Definition Conn : Type := nat.
Definition Cursor : Type := nat.

(** The operations of psycopg2, [time] and the file system that the code
    calls.  Each takes the world and gives a result (a value or an
    exception) and the world after the call. *)
Class Driver (W : Type) : Type := {
  psycopg2_connect : string -> W -> result Conn * W;
  conn_set_autocommit : Conn -> bool -> W -> result unit * W;
  conn_cursor : Conn -> W -> result Cursor * W;
  conn_close : Conn -> W -> result unit * W;
  cursor_execute : Cursor -> string -> W -> result pyobj * W;
  cursor_fetchone : Cursor -> W -> result (option row) * W;
  cursor_fetchall : Cursor -> W -> result (list row) * W;
  cursor_close : Cursor -> W -> result unit * W;
  time_sleep : nat -> W -> W;
  json_dump_to_file : string -> pyobj -> W -> result unit * W
}.

(** What the trace records. *)
Inductive event : Type :=
| EvConnect (dsn : string) (r : result Conn)
| EvAutocommit (c : Conn) (b : bool) (r : result unit)
| EvCursor (c : Conn) (r : result Cursor)
| EvConnClose (c : Conn) (r : result unit)
| EvExecute (c : Cursor) (sql : string) (r : result pyobj)
| EvFetchone (c : Cursor) (r : result (option row))
| EvFetchall (c : Cursor) (r : result (list row))
| EvCursorClose (c : Cursor) (r : result unit)
| EvSleep (secs : nat)
| EvDump (path : string) (v : pyobj) (r : result unit)
| EvLog (msg : string).

(** The attributes of a [PGUtils] object. *)
Record PGUtils : Type := mkPGUtils {
  conn_str : string;
  conn : option Conn;
  cursor : option Cursor;
  auto_commit : bool
}.

(** The state a computation runs in: the object, the world, the trace
    (most recent event first). *)
Record St (W : Type) : Type := mkSt {
  self : PGUtils;
  world : W;
  trace : list event
}.
Arguments mkSt {W} _ _ _.
Arguments self {W} _.
Arguments world {W} _.
Arguments trace {W} _.

(** ** A state and exception monad

    A computation returns a value, raises, or is still blocked in the retry
    loop when its fuel is used up. *)
Inductive outcome (S A : Type) : Type :=
| Ret (a : A) (s : S)
| Raise (e : exn) (s : S)
| Blocked.
Arguments Ret {S A} a s.
Arguments Raise {S A} e s.
Arguments Blocked {S A}.

Definition M (W A : Type) : Type := St W -> outcome (St W) A.

Definition ret {W A} (a : A) : M W A := fun st => Ret a st.

Definition raise {W A} (e : exn) : M W A := fun st => Raise e st.

Definition bind {W A B} (m : M W A) (k : A -> M W B) : M W B :=
  fun st =>
    match m st with
    | Ret a st' => k a st'
    | Raise e st' => Raise e st'
    | Blocked => Blocked
    end.

(** [try: m except Exception as e: h e] *)
Definition try_except {W A} (m : M W A) (h : exn -> M W A) : M W A :=
  fun st =>
    match m st with
    | Ret a st' => Ret a st'
    | Raise e st' => h e st'
    | Blocked => Blocked
    end.

Declare Scope py_scope.
Delimit Scope py_scope with py.
Notation "x <- m ;; k" := (bind m (fun x => k))
  (at level 61, m at next level, right associativity) : py_scope.
Notation "m ;; k" := (bind m (fun _ => k))
  (at level 61, right associativity) : py_scope.
Open Scope py_scope.

Section Primitives.
Context {W : Type} `{Driver W}.

Definition get_self : M W PGUtils := fun st => Ret (self st) st.

Definition set_self (o : PGUtils) : M W unit :=
  fun st => Ret tt (mkSt o (world st) (trace st)).

Definition emit (ev : event) : M W unit :=
  fun st => Ret tt (mkSt (self st) (world st) (ev :: trace st)).

(** A call into the world: the result is recorded, an [Err] is raised. *)
Definition call {A} (op : W -> result A * W) (ev : result A -> event)
  : M W A :=
  fun st =>
    let (r, w) := op (world st) in
    let st' := mkSt (self st) w (ev r :: trace st) in
    match r with
    | Ok a => Ret a st'
    | Err e => Raise e st'
    end.

Definition lift {A} (r : result A) : M W A :=
  match r with
  | Ok a => ret a
  | Err e => raise e
  end.

(** [logger.error(msg)] and [logger.exception(msg)]. *)
Definition logger_error (msg : string) : M W unit := emit (EvLog msg).

Definition sleep (secs : nat) : M W unit :=
  fun st => Ret tt (mkSt (self st) (time_sleep secs (world st))
                         (EvSleep secs :: trace st)).
End Primitives.

(** ** [src/pg_utils.py] *)

Module pg_utils.
Section PGUtils.
Context {W : Type} `{Driver W}.

(** [os.environ.get] *)
Variable environ : string -> option string.

Definition set_conn (c : Conn) : M W unit :=
  o <- get_self ;;
  set_self (mkPGUtils (conn_str o) (Some c) (cursor o) (auto_commit o)).

Definition set_cursor (c : Cursor) : M W unit :=
  o <- get_self ;;
  set_self (mkPGUtils (conn_str o) (conn o) (Some c) (auto_commit o)).

(** The statement of the health check. *)
Definition version_stmt : string := "SELECT version()".

(** [PGUtils.check_db_connection]: [ret_val] starts as [None] and is
    returned as it stands when [fetchone] gives nothing. *)
Definition check_db_connection : M W pyobj :=
  try_except
    (o <- get_self ;;
     match conn o, cursor o with
     | Some _, Some cur =>
         call (cursor_execute cur version_stmt)
              (EvExecute cur version_stmt) ;;
         db_version <- call (cursor_fetchone cur) (EvFetchone cur) ;;
         match db_version with
         | Some (_ :: _) => ret (PyBool true)
         | _ => ret PyNone
         end
     | _, _ => ret (PyBool false)
     end)
    (fun _ => ret (PyBool false)).

(** How one pass through the body of [while not good_conn] ends: with
    [return], or by reaching the retry notice with the value
    [good_conn] then has. *)
Inductive pass : Type :=
| Returned
| Retry (good_conn : pyobj).

(** The body of the loop of [get_db_connection], up to the end of its
    [try] statement. *)
Definition connect_attempt : M W pass :=
  good_conn <- check_db_connection ;;
  try_except
    (if negb (truthy good_conn) then
       o <- get_self ;;
       c <- call (psycopg2_connect (conn_str o)) (EvConnect (conn_str o)) ;;
       set_conn c ;;
       call (conn_set_autocommit c (auto_commit o))
            (EvAutocommit c (auto_commit o)) ;;
       cur <- call (conn_cursor c) (EvCursor c) ;;
       set_cursor cur ;;
       good_conn <- check_db_connection ;;
       if truthy good_conn then ret Returned else ret (Retry good_conn)
     else ret Returned)
    (fun _ => ret (Retry (PyBool false))).

Definition retry_notice : string := "DB Connection failed. Retrying...".

(** The loop [while not good_conn], with [fuel] bounding the passes. *)
Fixpoint retry_loop (fuel : nat) (good_conn : pyobj) : M W unit :=
  if truthy good_conn then ret tt
  else
    match fuel with
    | O => fun _ => Blocked
    | S fuel' =>
        p <- connect_attempt ;;
        match p with
        | Returned => ret tt
        | Retry g =>
            logger_error retry_notice ;;
            sleep 5 ;;
            retry_loop fuel' g
        end
    end.

(** [PGUtils.get_db_connection] *)
Definition get_db_connection (fuel : nat) : M W unit :=
  retry_loop fuel (PyBool false).

(** [PGUtils.__init__]; the set-up of the logger is left out. *)
Definition __init__ (fuel : nat) (dbname username password : option string)
    (auto_commit : bool) : M W unit :=
  let host := environ "ASGS_DB_HOST" in
  let port := environ "ASGS_DB_PORT" in
  set_self (mkPGUtils
              ("host=" ++ fmt_opt host ++ " port=" ++ fmt_opt port
               ++ " dbname=" ++ fmt_opt dbname ++ " user=" ++ fmt_opt username
               ++ " password=" ++ fmt_opt password)
              None None auto_commit) ;;
  get_db_connection fuel.

(** [PGUtils.__del__] *)
Definition __del__ : M W unit :=
  try_except
    (o <- get_self ;;
     match cursor o with
     | Some cur => call (cursor_close cur) (EvCursorClose cur)
     | None => ret tt
     end ;;
     match conn o with
     | Some c => call (conn_close c) (EvConnClose c)
     | None => ret tt
     end)
    (fun e =>
       logger_error
         ("Error detected closing cursor or connection. " ++ exn_str e)).

Definition exec_error_msg (sql_stmt : string) (e : exn) : string :=
  "Error detected executing SQL: " ++ sql_stmt ++ ". " ++ exn_str e.

(** [self.cursor.execute(sql_stmt)]: an attribute error when there is no
    cursor. *)
Definition self_cursor_execute (sql_stmt : string) : M W pyobj :=
  o <- get_self ;;
  match cursor o with
  | Some cur => call (cursor_execute cur sql_stmt) (EvExecute cur sql_stmt)
  | None =>
      raise (AttributeError "'NoneType' object has no attribute 'execute'")
  end.

Definition self_cursor_fetchall : M W (list row) :=
  o <- get_self ;;
  match cursor o with
  | Some cur => call (cursor_fetchall cur) (EvFetchall cur)
  | None =>
      raise (AttributeError "'NoneType' object has no attribute 'fetchall'")
  end.

(** [PGUtils.exec_sql] *)
Definition exec_sql (fuel : nat) (sql_stmt : string) (is_select : bool)
  : M W pyobj :=
  get_db_connection fuel ;;
  try_except
    (ret_val <- self_cursor_execute sql_stmt ;;
     if is_select then
       rows <- self_cursor_fetchall ;;
       if (length rows =? 0)%nat then ret (PyInt (-1))
       else ret (PyList (map PyTuple rows))
     else ret ret_val)
    (fun e =>
       logger_error (exec_error_msg sql_stmt e) ;;
       ret (PyInt (-2))).

(** The statement text [get_terria_map_catalog_data] builds. *)
Definition catalog_sql (grid_type event_type instance_name run_date
    end_date : string) (limit : option Z) : string :=
  "SELECT public.get_terria_data_json(_grid_type:=" ++ grid_type
  ++ ", _event_type:=" ++ event_type
  ++ ", _instance_name:=" ++ instance_name
  ++ ", _run_date:=" ++ run_date
  ++ ", _end_date:=" ++ end_date
  ++ ", _limit:=" ++ fmt_int limit ++ ")".

(** [PGUtils.get_terria_map_catalog_data] *)
Definition get_terria_map_catalog_data (fuel : nat)
    (grid_type event_type instance_name run_date end_date : string)
    (limit : option Z) : M W pyobj :=
  let sql := catalog_sql grid_type event_type instance_name run_date
               end_date limit in
  r <- exec_sql fuel sql true ;;
  first_row <- lift (py_getitem r 0) ;;
  lift (py_getitem first_row 0).
End PGUtils.
End pg_utils.

(** ** [src/server.py] *)

Module server.
Section Handlers.
Context {W : Type} `{Driver W}.

(** [os.environ.get] *)
Variable environ : string -> option string.

(** [os.path.dirname(__file__)] *)
Variable server_dir : string.

(** The exception, if any, that the serialiser of [JSONResponse] raises
    on a content: a [TypeError] for an object it cannot serialise, a
    [ValueError] for a float that is not finite. *)
Variable json_render_error : pyobj -> option exn.

Definition apsviz_dbname : option string := environ "APSVIZ_DB_DATABASE".
Definition apsviz_username : option string := environ "APSVIZ_DB_USERNAME".
Definition apsviz_password : option string := environ "APSVIZ_DB_PASSWORD".

(** [not x] for a value that is a string or [None]. *)
Definition py_not (x : option string) : bool :=
  match x with
  | None => true
  | Some s => negb (truthy (PyStr s))
  end.

(** ['null' if not x else f"'{x}'"] *)
Definition prep (x : option string) : string :=
  if py_not x then "null" else "'" ++ fmt_opt x ++ "'".

Definition starts_with_slash (s : string) : bool :=
  match s with
  | String c _ => Ascii.eqb c "/"%char
  | EmptyString => false
  end.

Fixpoint ends_with_slash (s : string) : bool :=
  match s with
  | EmptyString => false
  | String c EmptyString => Ascii.eqb c "/"%char
  | String _ s' => ends_with_slash s'
  end.

(** [os.path.join(a, b)] on a POSIX system. *)
Definition os_path_join (a b : string) : string :=
  if starts_with_slash b then b
  else if (String.length a =? 0)%nat || ends_with_slash a then a ++ b
  else a ++ "/" ++ b.

(** A [JSONResponse] as the handler builds it. *)
Record JSONResponse : Type := mkJSONResponse {
  json_content : pyobj;
  json_status_code : Z;
  json_media_type : string
}.

(** A [FileResponse]: the handler passes [path], [filename] and
    [media_type]; the status code is the framework's default. *)
Record FileResponse : Type := mkFileResponse {
  file_path : string;
  file_filename : string;
  file_media_type : string;
  file_status_code : Z
}.

Definition FileResponse_default_status : Z := 200.

Definition new_FileResponse (path filename media_type : string)
  : FileResponse :=
  mkFileResponse path filename media_type FileResponse_default_status.

(** [JSONResponse(content=..., status_code=..., media_type=...)]: the
    constructor serialises the content, and raises what that raises. *)
Definition new_JSONResponse (content : pyobj) (status_code : Z)
    (media_type : string) : M W JSONResponse :=
  match json_render_error content with
  | Some e => raise e
  | None => ret (mkJSONResponse content status_code media_type)
  end.

Definition failure_message : string :=
  "Exception detected trying to get the terria map catalog data.".

(** Handler of [GET /get_ui_data].  The response is built after the
    [try] statement. *)
Definition get_terria_map_catalog_data (fuel : nat)
    (grid_type event_type instance_name run_date end_date : option string)
    (limit : option Z) : M W JSONResponse :=
  let status_code := 200%Z in
  r <- try_except
         (pg_utils.__init__ environ fuel apsviz_dbname apsviz_username
            apsviz_password true ;;
          let grid_type := prep grid_type in
          let event_type := prep event_type in
          let instance_name := prep instance_name in
          let run_date := prep run_date in
          let end_date := prep end_date in
          ret_val <- pg_utils.get_terria_map_catalog_data fuel grid_type
                       event_type instance_name run_date end_date limit ;;
          ret (ret_val, status_code))
         (fun e =>
            let ret_val := failure_message in
            logger_error ret_val ;;
            let status_code := 500%Z in
            ret (PyStr ret_val, status_code)) ;;
  new_JSONResponse (fst r) (snd r) "application/json".

(** Handler of [GET /get_ui_data_file].  The local [status_code] is set
    as in the source; the response is built without it. *)
Definition get_terria_map_catalog_data_file (fuel : nat) (file_name : string)
    (grid_type event_type instance_name run_date end_date : option string)
    (limit : option Z) : M W FileResponse :=
  let status_code := 200%Z in
  let file_path := os_path_join server_dir file_name in
  let grid_type := prep grid_type in
  let event_type := prep event_type in
  let instance_name := prep instance_name in
  let run_date := prep run_date in
  let end_date := prep end_date in
  status_code <- try_except
         (pg_utils.__init__ environ fuel apsviz_dbname apsviz_username
            apsviz_password true ;;
          ret_val <- pg_utils.get_terria_map_catalog_data fuel grid_type
                       event_type instance_name run_date end_date limit ;;
          call (json_dump_to_file file_path ret_val)
               (EvDump file_path ret_val) ;;
          ret status_code)
         (fun e =>
            logger_error (exn_str e) ;;
            ret 500%Z) ;;
  ret (new_FileResponse file_path file_name "text/json").

(** The query string of a request: a parameter is absent or has a value. *)
Record query : Type := mkQuery {
  q_file_name : option string;
  q_grid_type : option string;
  q_event_type : option string;
  q_instance_name : option string;
  q_run_date : option string;
  q_end_date : option string;
  q_limit : option Z
}.

(** [Query(default=d)]: the value supplied, or the default. *)
Definition Query {A : Type} (default : A) (supplied : option A) : A :=
  match supplied with
  | Some v => v
  | None => default
  end.

(** [GET /get_ui_data] *)
Definition GET_get_ui_data (fuel : nat) (q : query) : M W JSONResponse :=
  get_terria_map_catalog_data fuel
    (Query None (option_map Some (q_grid_type q)))
    (Query None (option_map Some (q_event_type q)))
    (Query None (option_map Some (q_instance_name q)))
    (Query None (option_map Some (q_run_date q)))
    (Query None (option_map Some (q_end_date q)))
    (Query (Some 4%Z) (option_map Some (q_limit q))).

(** [GET /get_ui_data_file] *)
Definition GET_get_ui_data_file (fuel : nat) (q : query) : M W FileResponse :=
  get_terria_map_catalog_data_file fuel
    (Query "apsviz.json" (q_file_name q))
    (Query None (option_map Some (q_grid_type q)))
    (Query None (option_map Some (q_event_type q)))
    (Query None (option_map Some (q_instance_name q)))
    (Query None (option_map Some (q_run_date q)))
    (Query None (option_map Some (q_end_date q)))
    (Query (Some 4%Z) (option_map Some (q_limit q))).
End Handlers.
End server.

(** ** A scripted database, to run the model on concrete inputs *)

Module mock.
(** The server refuses connections for [outage] more seconds; the health
    check statement yields [version_row]; every other statement yields
    [table], unless its text is in [rejected]. *)
Record db : Type := mkDb {
  outage : nat;
  next_handle : nat;
  version_row : option row;
  table : list row;
  rejected : list string;
  close_fails : bool;
  files : list (string * pyobj)
}.

Definition fresh_handle (w : db) : nat * db :=
  (next_handle w,
   mkDb (outage w) (S (next_handle w)) (version_row w) (table w)
        (rejected w) (close_fails w) (files w)).

Definition connect (dsn : string) (w : db) : result Conn * db :=
  if (outage w =? 0)%nat then
    let (h, w') := fresh_handle w in (Ok h, w')
  else (Err (DatabaseError "could not connect to server"), w).

Definition new_cursor (c : Conn) (w : db) : result Cursor * db :=
  let (h, w') := fresh_handle w in (Ok h, w').

Definition execute (c : Cursor) (sql : string) (w : db)
  : result pyobj * db :=
  if existsb (String.eqb sql) (rejected w)
  then (Err (DatabaseError "syntax error"), w)
  else (Ok PyNone, w).

Definition close (w : db) : result unit * db :=
  if close_fails w then (Err (DatabaseError "connection already closed"), w)
  else (Ok tt, w).

Definition pass_time (secs : nat) (w : db) : db :=
  mkDb (outage w - secs) (next_handle w) (version_row w) (table w)
       (rejected w) (close_fails w) (files w).

Definition dump (path : string) (v : pyobj) (w : db) : result unit * db :=
  (Ok tt,
   mkDb (outage w) (next_handle w) (version_row w) (table w)
        (rejected w) (close_fails w) ((path, v) :: files w)).

#[global] Instance driver : Driver db := {|
  psycopg2_connect := connect;
  conn_set_autocommit := fun _ _ w => (Ok tt, w);
  conn_cursor := new_cursor;
  conn_close := fun _ => close;
  cursor_execute := execute;
  cursor_fetchone := fun _ w => (Ok (version_row w), w);
  cursor_fetchall := fun _ w => (Ok (table w), w);
  cursor_close := fun _ => close;
  time_sleep := pass_time;
  json_dump_to_file := dump
|}.

Definition pg_version : row := [PyStr "PostgreSQL 14.5"].

(** A server that is up, with [rows] as the answer to every statement. *)
Definition up (rows : list row) : db :=
  mkDb 0 0 (Some pg_version) rows [] false [].

(** A server that comes up after [secs] seconds. *)
Definition down_for (secs : nat) (rows : list row) : db :=
  mkDb secs 0 (Some pg_version) rows [] false [].

(** An object that has no connection yet, in world [w]. *)
Definition start (w : db) : St db :=
  mkSt (mkPGUtils "host=db port=5432" None None true) w [].

(** An object holding connection 0 and cursor 1, in world [w]. *)
Definition connected (w : db) : St db :=
  mkSt (mkPGUtils "host=db port=5432" (Some 0) (Some 1) true) w [].

Definition no_environ (name : string) : option string := None.

(** A serialiser that refuses the objects that are no containers, also
    inside a tuple, a list or a dictionary, and nothing else. *)
Fixpoint render_error (v : pyobj) : option exn :=
  match v with
  | PyObject type_name _ =>
      Some (TypeError ("Object of type " ++ type_name
                       ++ " is not JSON serializable"))
  | PyTuple xs | PyList xs =>
      fold_right (fun x acc =>
                    match render_error x with
                    | Some e => Some e
                    | None => acc
                    end) None xs
  | PyDict items =>
      fold_right (fun kv acc =>
                    match render_error (snd kv) with
                    | Some e => Some e
                    | None => acc
                    end) None items
  | _ => None
  end.
End mock.

(** ** Vocabulary of the statements *)

Section Vocabulary.
Context {W : Type} `{Driver W}.

(** The texts of the statements run through a cursor, most recent first. *)
Fixpoint executed (tr : list event) : list string :=
  match tr with
  | EvExecute _ sql _ :: tl => sql :: executed tl
  | _ :: tl => executed tl
  | [] => []
  end.

(** The durations slept, most recent first. *)
Fixpoint sleeps (tr : list event) : list nat :=
  match tr with
  | EvSleep secs :: tl => secs :: sleeps tl
  | _ :: tl => sleeps tl
  | [] => []
  end.

(** The messages logged, most recent first. *)
Fixpoint logged (tr : list event) : list string :=
  match tr with
  | EvLog msg :: tl => msg :: logged tl
  | _ :: tl => logged tl
  | [] => []
  end.

(** The two latest events are a health check of cursor [cur] that
    succeeded: the statement ran and [fetchone] gave a row. *)
Definition checked_on (cur : Cursor) (tr : list event) : bool :=
  match tr with
  | EvFetchone c1 (Ok (Some (_ :: _)))
      :: EvExecute c2 sql (Ok _) :: _ =>
      (c1 =? cur)%nat && (c2 =? cur)%nat
      && String.eqb sql pg_utils.version_stmt
  | _ => false
  end.

(** The object holds a connection and a cursor, and the latest thing that
    happened is a successful health check of that cursor. *)
Definition just_checked (st : St W) : bool :=
  match conn (self st), cursor (self st) with
  | Some _, Some cur => checked_on cur (trace st)
  | _, _ => false
  end.

(** Every statement in the trace is the health check statement or was run
    on a cursor whose health check had just succeeded. *)
Fixpoint guarded (tr : list event) : bool :=
  match tr with
  | EvExecute cur sql _ :: tl =>
      (String.eqb sql pg_utils.version_stmt || checked_on cur tl)
      && guarded tl
  | _ :: tl => guarded tl
  | [] => true
  end.

(** The state once the retry notice is logged and the sleep is over. *)
Definition after_retry (st : St W) : St W :=
  mkSt (self st) (time_sleep 5 (world st))
       (EvSleep 5 :: EvLog pg_utils.retry_notice :: trace st).

(** From [st], the first [n] passes of the loop of [get_db_connection]
    end at the retry notice and the next one returns. *)
Fixpoint connects_after (n : nat) (st : St W) : bool :=
  match n with
  | O =>
      match pg_utils.connect_attempt st with
      | Ret pg_utils.Returned _ => true
      | _ => false
      end
  | S k =>
      match pg_utils.connect_attempt st with
      | Ret (pg_utils.Retry _) st' => connects_after k (after_retry st')
      | _ => false
      end
  end.

(** The outcome carries a state whose trace is guarded, or is [Blocked]. *)
Definition ends_guarded {A : Type} (o : outcome (St W) A) : Prop :=
  match o with
  | Ret _ st' | Raise _ st' => guarded (trace st') = true
  | Blocked => True
  end.
End Vocabulary.

Open Scope list_scope.

Section TraceVocabulary.
(** Events of a health check or of opening a connection. *)
Definition housekeeping (e : event) : bool :=
  match e with
  | EvConnect _ _ | EvAutocommit _ _ _ | EvCursor _ _ | EvFetchone _ _ => true
  | EvExecute _ sql _ => String.eqb sql pg_utils.version_stmt
  | _ => false
  end.

(** Events of [get_db_connection]: the above, the retry notice, the sleep. *)
Definition managing (e : event) : bool :=
  match e with
  | EvSleep _ | EvLog _ => true
  | _ => housekeeping e
  end.

(** Events that run no statement. *)
Definition runs_nothing (e : event) : bool :=
  match e with
  | EvExecute _ _ _ => false
  | _ => true
  end.

(** [tr'] is [tr] with newer events in front, all of them satisfying [P]. *)
Definition extends_by (P : event -> bool) (tr tr' : list event) : Prop :=
  exists d, tr' = d ++ tr /\ forallb P d = true.
End TraceVocabulary.

Section StatementVocabulary.
Context {W : Type} `{Driver W}.

(** The exception, if any, that running [sql] on [cur] in world [w]
    meets: in [execute], or, for a read, in the [fetchall] after it. *)
Definition statement_error (cur : Cursor) (sql : string) (is_select : bool)
    (w : W) : option exn :=
  match cursor_execute cur sql w with
  | (Err e, _) => Some e
  | (Ok _, w2) =>
      if is_select then
        match cursor_fetchall cur w2 with
        | (Err e, _) => Some e
        | (Ok _, _) => None
        end
      else None
  end.

(** The state [exec_sql] ends in when it runs [sql] from [st1], the state
    [get_db_connection] returned in, and the value it returns. *)
Definition run_statement (cur : Cursor) (sql : string) (is_select : bool)
    (st1 : St W) : pyobj * St W :=
  match cursor_execute cur sql (world st1) with
  | (Err e, w2) =>
      (PyInt (-2),
       mkSt (self st1) w2
            (EvLog (pg_utils.exec_error_msg sql e)
               :: EvExecute cur sql (Err e) :: trace st1))
  | (Ok v, w2) =>
      if is_select then
        match cursor_fetchall cur w2 with
        | (Err e, w3) =>
            (PyInt (-2),
             mkSt (self st1) w3
                  (EvLog (pg_utils.exec_error_msg sql e)
                     :: EvFetchall cur (Err e)
                     :: EvExecute cur sql (Ok v) :: trace st1))
        | (Ok rows, w3) =>
            (if (length rows =? 0)%nat then PyInt (-1)
             else PyList (map PyTuple rows),
             mkSt (self st1) w3
                  (EvFetchall cur (Ok rows)
                     :: EvExecute cur sql (Ok v) :: trace st1))
        end
      else
        (v, mkSt (self st1) w2 (EvExecute cur sql (Ok v) :: trace st1))
  end.
End StatementVocabulary.

Section TeardownVocabulary.
(** Events of [__del__]. *)
Definition closing (e : event) : bool :=
  match e with
  | EvCursorClose _ _ | EvConnClose _ _ | EvLog _ => true
  | _ => false
  end.

Definition is_conn_close (e : event) : bool :=
  match e with
  | EvConnClose _ _ => true
  | _ => false
  end.

(** No connection was closed before a cursor was (the list has the most
    recent event first). *)
Fixpoint cursor_before_conn (d : list event) : bool :=
  match d with
  | EvCursorClose _ _ :: tl =>
      forallb (fun e => negb (is_conn_close e)) tl && cursor_before_conn tl
  | _ :: tl => cursor_before_conn tl
  | [] => true
  end.

(** The exceptions that the close calls met, most recent first. *)
Fixpoint close_errors (d : list event) : list exn :=
  match d with
  | EvCursorClose _ (Err e) :: tl | EvConnClose _ (Err e) :: tl =>
      e :: close_errors tl
  | _ :: tl => close_errors tl
  | [] => []
  end.

Definition close_error_msg (e : exn) : string :=
  ("Error detected closing cursor or connection. " ++ exn_str e)%string.
End TeardownVocabulary.

Section RequestVocabulary.
(** A parameter given as the empty string, read as one that is absent. *)
Definition blank_to_absent (x : option string) : option string :=
  match x with
  | Some EmptyString => None
  | _ => x
  end.

(** The query with every blank filter left out. *)
Definition omit_blank (q : server.query) : server.query :=
  server.mkQuery (server.q_file_name q)
    (blank_to_absent (server.q_grid_type q))
    (blank_to_absent (server.q_event_type q))
    (blank_to_absent (server.q_instance_name q))
    (blank_to_absent (server.q_run_date q))
    (blank_to_absent (server.q_end_date q))
    (server.q_limit q).

(** The statement text of a call with no filter and the default limit. *)
Definition unfiltered_call : string :=
  "SELECT public.get_terria_data_json(_grid_type:=null, _event_type:=null, _instance_name:=null, _run_date:=null, _end_date:=null, _limit:=4)"%string.
End RequestVocabulary.

Section Scenarios.
(** A server that is up and rejects the unfiltered call; the output file
    of an earlier request is still there. *)
Definition scenario_rejecting : mock.db :=
  mock.mkDb 0 0 (Some mock.pg_version) [] [unfiltered_call] false
    [("/srv/app/src/apsviz.json"%string, PyStr "stale")].

(** A server whose answer to the health check statement has no row. *)
Definition scenario_no_version : mock.db :=
  mock.mkDb 0 2 None [] [] false [].

(** A request without any parameter. *)
Definition bare_request : server.query :=
  server.mkQuery None None None None None None None.
End Scenarios.

(** ** A database that refuses every call *)

Module unreachable.
Definition refuse {A : Type} (w : unit) : result A * unit :=
  (Err (DatabaseError "could not connect to server"), w).

#[global] Instance driver : Driver unit := {|
  psycopg2_connect := fun _ => refuse;
  conn_set_autocommit := fun _ _ => refuse;
  conn_cursor := fun _ => refuse;
  conn_close := fun _ => refuse;
  cursor_execute := fun _ _ => refuse;
  cursor_fetchone := fun _ => refuse;
  cursor_fetchall := fun _ => refuse;
  cursor_close := fun _ => refuse;
  time_sleep := fun _ w => w;
  json_dump_to_file := fun _ _ w => (Ok tt, w)
|}.

(** An object that has no connection yet. *)
Definition start : St unit :=
  mkSt (mkPGUtils "host=db port=5432" None None true) tt [].
End unreachable.

Section EventVocabulary.
(** How many events of the trace satisfy [p]. *)
Definition count_events (p : event -> bool) (tr : list event) : nat :=
  length (filter p tr).

Definition is_close (e : event) : bool :=
  match e with
  | EvConnClose _ _ | EvCursorClose _ _ => true
  | _ => false
  end.


Definition is_sleep_or_log (e : event) : bool :=
  match e with
  | EvSleep _ | EvLog _ => true
  | _ => false
  end.

(** Events that are a [fetchall] or a log entry. *)
Definition fetch_or_log (e : event) : bool :=
  match e with
  | EvFetchall _ _ | EvLog _ => true
  | _ => false
  end.

(** Events of connection management in which every [connect] is given
    [dsn] and every assignment to [autocommit] is [ac]. *)
Definition opens_as (dsn : string) (ac : bool) (e : event) : bool :=
  match e with
  | EvConnect d _ => String.eqb d dsn
  | EvAutocommit _ b _ => Bool.eqb b ac
  | _ => managing e
  end.

(** The files written, with what was written, most recent first. *)
Fixpoint dumped (tr : list event) : list (string * pyobj) :=
  match tr with
  | EvDump path v _ :: tl => (path, v) :: dumped tl
  | _ :: tl => dumped tl
  | [] => []
  end.
End EventVocabulary.

Section CheckVocabulary.
Context {W : Type} `{Driver W}.

(** The cursor the health check would use: there is one only when the
    object has both a connection and a cursor. *)
Definition held_cursor (o : PGUtils) : option Cursor :=
  match conn o, cursor o with
  | Some _, Some cur => Some cur
  | _, _ => None
  end.

(** What the round trip of the health check on [cur] gives in world [w]:
    the exception of [execute] or of [fetchone], or what [fetchone]
    returned. *)
Definition round_trip (cur : Cursor) (w : W) : result (option row) :=
  match cursor_execute cur pg_utils.version_stmt w with
  | (Ok _, w1) => fst (cursor_fetchone cur w1)
  | (Err e, _) => Err e
  end.
End CheckVocabulary.

Section ProvenanceVocabulary.
Context {W : Type} `{Driver W}.

(** Events of a health check alone. *)
Definition check_event (e : event) : bool :=
  match e with
  | EvFetchone _ _ => true
  | EvExecute _ sql _ => String.eqb sql pg_utils.version_stmt
  | _ => false
  end.

(** From [st] to [st'] the connection string and the commit mode are
    kept; the events added are those of connection management, with
    every [connect] given the connection string and every [autocommit]
    set to the commit mode; the connection held is the one held before
    or one that a [connect] among the added events returned, and
    likewise the cursor. *)
Definition opened_since (st st' : St W) : Prop :=
  conn_str (self st') = conn_str (self st)
  /\ auto_commit (self st') = auto_commit (self st)
  /\ exists d,
      trace st' = d ++ trace st
      /\ forallb (opens_as (conn_str (self st)) (auto_commit (self st))) d
         = true
      /\ (conn (self st') = conn (self st)
          \/ exists c,
               conn (self st') = Some c
               /\ In (EvConnect (conn_str (self st)) (Ok c)) d)
      /\ (cursor (self st') = cursor (self st)
          \/ exists c cur,
               cursor (self st') = Some cur /\ In (EvCursor c (Ok cur)) d).
End ProvenanceVocabulary.

Section DumpVocabulary.
Definition is_dump (e : event) : bool :=
  match e with
  | EvDump _ _ _ => true
  | _ => false
  end.
End DumpVocabulary.

(** * Properties *)

(** Names the events a computation added to the trace. *)
Ltac give_delta :=
  cbn [trace];
  match goal with
  | |- exists d, ?t = d ++ ?t /\ _ => exists []
  | |- exists d, ?a :: ?t = d ++ ?t /\ _ => exists [a]
  | |- exists d, ?a :: ?b :: ?t = d ++ ?t /\ _ => exists [a; b]
  | |- exists d, ?a :: ?b :: ?c :: ?t = d ++ ?t /\ _ => exists [a; b; c]
  end.

(** ** Traces *)

Section Traces.
Variable P : event -> bool.

Lemma extends_by_refl (tr : list event) : extends_by P tr tr.
Proof. exists []. split; reflexivity. Qed.

Lemma extends_by_trans (a b c : list event) :
  extends_by P a b -> extends_by P b c -> extends_by P a c.
Proof.
  intros (d1 & -> & H1) (d2 & -> & H2).
  exists (d2 ++ d1). split.
  - now rewrite app_assoc.
  - rewrite forallb_app, H1, H2. reflexivity.
Qed.

Lemma extends_by_cons (e : event) (tr tr' : list event) :
  P e = true -> extends_by P tr tr' -> extends_by P tr (e :: tr').
Proof.
  intros He (d & -> & Hd). exists (e :: d). split; [reflexivity|].
  simpl. now rewrite He, Hd.
Qed.

Lemma extends_by_weaken (Q : event -> bool) (tr tr' : list event) :
  (forall e, P e = true -> Q e = true) ->
  extends_by P tr tr' -> extends_by Q tr tr'.
Proof.
  intros HPQ (d & -> & Hd). exists d. split; [reflexivity|].
  rewrite forallb_forall in *. auto.
Qed.
End Traces.

Lemma housekeeping_managing (e : event) :
  housekeeping e = true -> managing e = true.
Proof. destruct e; simpl; auto; discriminate. Qed.

Lemma managing_guarded (tr tr' : list event) :
  extends_by managing tr tr' -> guarded tr' = guarded tr.
Proof.
  intros (d & -> & Hd). induction d as [|e d IH]; [reflexivity|].
  simpl in Hd. apply andb_true_iff in Hd as [He Hd].
  destruct e; simpl in *; try discriminate; auto.
  rewrite He. simpl. auto.
Qed.

Lemma managing_executed (tr tr' : list event) :
  extends_by managing tr tr' ->
  exists cs, executed tr' = cs ++ executed tr
             /\ Forall (eq pg_utils.version_stmt) cs.
Proof.
  intros (d & -> & Hd). induction d as [|e d IH].
  - exists []. split; [reflexivity | constructor].
  - simpl in Hd. apply andb_true_iff in Hd as [He Hd].
    destruct (IH Hd) as (cs & E & F).
    destruct e; simpl in *; try discriminate; eauto.
    exists (sql :: cs). rewrite E. split; [reflexivity|].
    constructor; [|assumption].
    symmetry. now apply String.eqb_eq.
Qed.

Lemma housekeeping_sleeps (tr tr' : list event) :
  extends_by housekeeping tr tr' -> sleeps tr' = sleeps tr.
Proof.
  intros (d & -> & Hd). induction d as [|e d IH]; [reflexivity|].
  simpl in Hd. apply andb_true_iff in Hd as [He Hd].
  destruct e; simpl in *; try discriminate; auto.
Qed.

Lemma housekeeping_logged (tr tr' : list event) :
  extends_by housekeeping tr tr' -> logged tr' = logged tr.
Proof.
  intros (d & -> & Hd). induction d as [|e d IH]; [reflexivity|].
  simpl in Hd. apply andb_true_iff in Hd as [He Hd].
  destruct e; simpl in *; try discriminate; auto.
Qed.

Lemma runs_nothing_executed (tr tr' : list event) :
  extends_by runs_nothing tr tr' -> executed tr' = executed tr.
Proof.
  intros (d & -> & Hd). induction d as [|e d IH]; [reflexivity|].
  simpl in Hd. apply andb_true_iff in Hd as [He Hd].
  destruct e; simpl in *; try discriminate; auto.
Qed.

Lemma runs_nothing_guarded (tr tr' : list event) :
  extends_by runs_nothing tr tr' -> guarded tr' = guarded tr.
Proof.
  intros (d & -> & Hd). induction d as [|e d IH]; [reflexivity|].
  simpl in Hd. apply andb_true_iff in Hd as [He Hd].
  destruct e; simpl in *; try discriminate; auto.
Qed.

(** ** The health check *)

Section HealthCheck.
Context {W : Type} `{Driver W}.

(** The check always returns; it leaves the object as it was, adds only
    its own two events, and answers [True] only after a round trip that
    gave a row. *)
Lemma check_db_connection_spec (st : St W) :
  exists v st',
    pg_utils.check_db_connection st = Ret v st'
    /\ self st' = self st
    /\ extends_by housekeeping (trace st) (trace st')
    /\ (v = PyBool true \/ v = PyBool false \/ v = PyNone)
    /\ (v = PyBool true -> just_checked st' = true).
Proof.
  unfold pg_utils.check_db_connection, try_except, bind, get_self, call, ret,
    just_checked.
  destruct st as [o w tr]; simpl.
  destruct (conn o) as [c|] eqn:Ec, (cursor o) as [cur|] eqn:Ecur;
    try (do 2 eexists; repeat split;
         [apply extends_by_refl | auto | discriminate]).
  cbn [self world trace].
  destruct (cursor_execute cur pg_utils.version_stmt w) as [[v|e] w1] eqn:Ex;
    cbn [self world trace].
  2:{ do 2 eexists; repeat split; simpl; auto; try discriminate.
      apply extends_by_cons; [reflexivity | apply extends_by_refl]. }
  destruct (cursor_fetchone cur w1) as [[[[|x xs]|]|e] w2] eqn:Ef; simpl;
    do 2 eexists; repeat split; simpl; auto; try discriminate;
    try (repeat (apply extends_by_cons; [reflexivity|]);
         apply extends_by_refl).
  intros _. rewrite Ec, Ecur. simpl. now rewrite !Nat.eqb_refl.
Qed.
End HealthCheck.

(** ** Ensure-Connected *)

Section EnsureConnected.
Context {W : Type} `{Driver W}.

(** One pass of the loop always ends, adds housekeeping events only, and
    ends in [return] only right after a successful health check. *)
Lemma connect_attempt_spec (st : St W) :
  exists p st',
    pg_utils.connect_attempt st = Ret p st'
    /\ extends_by housekeeping (trace st) (trace st')
    /\ match p with
       | pg_utils.Returned => just_checked st' = true
       | pg_utils.Retry g => truthy g = false
       end.
Proof.
  unfold pg_utils.connect_attempt, bind.
  destruct (check_db_connection_spec st)
    as (v & st1 & E1 & Hs1 & Ht1 & Hv1 & Hc1).
  rewrite E1.
  assert (Hv : v = PyBool true \/ truthy v = false)
    by (destruct Hv1 as [-> | [-> | ->]]; auto).
  clear Hv1. destruct Hv as [-> | Hv].
  { unfold try_except; simpl. do 2 eexists; repeat split; auto. }
  rewrite Hv.
  unfold try_except, bind, get_self, call, pg_utils.set_conn,
    pg_utils.set_cursor, set_self, get_self, bind, ret.
  cbn [negb self world trace].
  destruct (psycopg2_connect (conn_str (self st1)) (world st1))
    as [[c|e] w1]; cbn [self world trace].
  2:{ do 2 eexists; repeat split; cbn [trace]; auto.
      apply extends_by_cons; [reflexivity | assumption]. }
  destruct (conn_set_autocommit c (auto_commit (self st1)) w1)
    as [[[]|e] w2]; cbn [self world trace conn_str conn cursor auto_commit].
  2:{ do 2 eexists; repeat split; cbn [trace]; auto.
      do 2 (apply extends_by_cons; [reflexivity |]); assumption. }
  destruct (conn_cursor c w2) as [[cur|e] w3];
    cbn [self world trace conn_str conn cursor auto_commit].
  2:{ do 2 eexists; repeat split; cbn [trace]; auto.
      do 3 (apply extends_by_cons; [reflexivity |]); assumption. }
  match goal with
  | |- context [pg_utils.check_db_connection ?s] =>
      destruct (check_db_connection_spec s)
        as (v2 & st2 & E2 & Hs2 & Ht2 & Hv2 & Hc2)
  end.
  rewrite E2. cbn [trace] in Ht2.
  assert (Hext : extends_by housekeeping (trace st) (trace st2)).
  { eapply extends_by_trans; [|exact Ht2].
    do 3 (apply extends_by_cons; [reflexivity |]); assumption. }
  destruct Hv2 as [-> | [-> | ->]]; cbn [truthy];
    do 2 eexists; repeat split; auto.
Qed.

Lemma retry_step {A : Type} (k : M W A) (st : St W) :
  (logger_error pg_utils.retry_notice ;; sleep 5 ;; k) st
  = k (after_retry st).
Proof. reflexivity. Qed.

Lemma after_retry_managing (tr : list event) (st : St W) :
  extends_by managing tr (trace st) ->
  extends_by managing tr (trace (after_retry st)).
Proof.
  intros Hx. unfold after_retry; cbn [trace].
  do 2 (apply extends_by_cons; [reflexivity|]). assumption.
Qed.

(** However much fuel there is, the loop never raises, and when it
    returns a health check has just succeeded. *)
Lemma retry_loop_spec (fuel : nat) :
  forall (g : pyobj) (st : St W),
    truthy g = false ->
    match pg_utils.retry_loop fuel g st with
    | Ret _ st' =>
        just_checked st' = true /\ extends_by managing (trace st) (trace st')
    | Raise _ _ => False
    | Blocked => True
    end.
Proof.
  induction fuel as [|fuel IH]; intros g st Hg; simpl; rewrite Hg; [exact I|].
  unfold bind at 1.
  destruct (connect_attempt_spec st) as (p & st1 & E & Hx & Hp).
  rewrite E.
  apply (extends_by_weaken _ _ _ _ housekeeping_managing) in Hx.
  destruct p as [|g'].
  - simpl. split; assumption.
  - rewrite retry_step.
    specialize (IH g' (after_retry st1) Hp).
    destruct (pg_utils.retry_loop fuel g' (after_retry st1)); auto.
    destruct IH as [Hc Hx']. split; [assumption|].
    eapply extends_by_trans; [|exact Hx'].
    now apply after_retry_managing.
Qed.

Lemma get_db_connection_spec (fuel : nat) (st : St W) :
  match pg_utils.get_db_connection fuel st with
  | Ret _ st' =>
      just_checked st' = true /\ extends_by managing (trace st) (trace st')
  | Raise _ _ => False
  | Blocked => True
  end.
Proof. apply retry_loop_spec. reflexivity. Qed.

Lemma retry_loop_connects (n : nat) :
  forall (g : pyobj) (st : St W),
    truthy g = false ->
    connects_after n st = true ->
    exists st',
      (forall fuel, n < fuel -> pg_utils.retry_loop fuel g st = Ret tt st')
      /\ (forall fuel, fuel <= n -> pg_utils.retry_loop fuel g st = Blocked)
      /\ just_checked st' = true
      /\ sleeps (trace st') = repeat 5 n ++ sleeps (trace st)
      /\ logged (trace st')
         = repeat pg_utils.retry_notice n ++ logged (trace st).
Proof.
  induction n as [|n IH]; intros g st Hg Hn; simpl in Hn;
    destruct (connect_attempt_spec st) as (p & st1 & E & Hx & Hp);
    rewrite E in Hn; destruct p as [|g']; try discriminate.
  - exists st1. repeat split; auto.
    + intros [|fuel] Hf; [lia|]. simpl. rewrite Hg. unfold bind.
      now rewrite E.
    + intros fuel Hf. assert (fuel = 0) as -> by lia.
      simpl. now rewrite Hg.
    + now apply housekeeping_sleeps.
    + now apply housekeeping_logged.
  - destruct (IH g' (after_retry st1) Hp Hn)
      as (st' & Hret & Hblk & Hc & Hsl & Hlg).
    exists st'. repeat split; auto.
    + intros [|fuel] Hf; [lia|]. simpl. rewrite Hg. unfold bind at 1.
      rewrite E, retry_step. apply Hret. lia.
    + intros [|fuel] Hf; simpl; rewrite Hg; [reflexivity|].
      unfold bind at 1. rewrite E, retry_step. apply Hblk. lia.
    + rewrite Hsl. cbn [after_retry trace sleeps repeat].
      rewrite (housekeeping_sleeps _ _ Hx).
      rewrite repeat_cons, <- app_assoc. reflexivity.
    + rewrite Hlg. cbn [after_retry trace logged repeat].
      rewrite (housekeeping_logged _ _ Hx).
      rewrite repeat_cons, <- app_assoc. reflexivity.
Qed.

(** C5.  If, from the state [get_db_connection] starts in, the first [n]
    connection attempts fail and the next one succeeds (for any [n]:
    there is no bound on the retries), then [get_db_connection] returns,
    given fuel for more than [n] passes, and is still in its loop with
    less.  When it returns, the latest event is a health check of the
    cursor it holds that succeeded; it has slept exactly [n] times, 5
    seconds each, each time after logging the retry notice. *)
Theorem get_db_connection_terminates_healthy (st : St W) (n : nat) :
  connects_after n st = true ->
  exists st',
    (forall fuel, n < fuel -> pg_utils.get_db_connection fuel st = Ret tt st')
    /\ (forall fuel, fuel <= n -> pg_utils.get_db_connection fuel st = Blocked)
    /\ just_checked st' = true
    /\ sleeps (trace st') = repeat 5 n ++ sleeps (trace st)
    /\ logged (trace st')
       = repeat pg_utils.retry_notice n ++ logged (trace st).
Proof.
  intros Hn. unfold pg_utils.get_db_connection.
  now apply retry_loop_connects.
Qed.
End EnsureConnected.

(** ** Execute *)

Section Execute.
Context {W : Type} `{Driver W}.

Lemma just_checked_cursor (st : St W) :
  just_checked st = true ->
  exists cur, cursor (self st) = Some cur /\ checked_on cur (trace st) = true.
Proof.
  unfold just_checked. destruct (conn (self st)); [|discriminate].
  destruct (cursor (self st)) as [cur|]; [|discriminate]. eauto.
Qed.

(** [exec_sql] is blocked as long as [get_db_connection] is; once that
    has returned, it runs the statement on the cursor the object holds. *)
Lemma exec_sql_unfold (fuel : nat) (sql : string) (is_select : bool)
    (st : St W) :
  match pg_utils.get_db_connection fuel st with
  | Ret _ st1 =>
      exists cur,
        cursor (self st1) = Some cur
        /\ checked_on cur (trace st1) = true
        /\ extends_by managing (trace st) (trace st1)
        /\ pg_utils.exec_sql fuel sql is_select st
           = Ret (fst (run_statement cur sql is_select st1))
                 (snd (run_statement cur sql is_select st1))
  | Raise _ _ => False
  | Blocked => pg_utils.exec_sql fuel sql is_select st = Blocked
  end.
Proof.
  pose proof (get_db_connection_spec fuel st) as Hc.
  destruct (pg_utils.get_db_connection fuel st) as [[] st1| |] eqn:E; auto.
  2:{ unfold pg_utils.exec_sql, bind at 1. now rewrite E. }
  destruct Hc as [Hc Hx].
  destruct (just_checked_cursor _ Hc) as (cur & Ecur & Hck).
  exists cur. repeat split; auto.
  unfold pg_utils.exec_sql, bind at 1. rewrite E.
  unfold run_statement, try_except, bind, pg_utils.self_cursor_execute,
    pg_utils.self_cursor_fetchall, get_self, call, bind, ret, logger_error,
    emit.
  rewrite Ecur. cbn [self world trace].
  destruct (cursor_execute cur sql (world st1)) as [[v|e] w2];
    cbn [self world trace fst snd]; [|reflexivity].
  destruct is_select; [|reflexivity].
  cbn [self world trace]. rewrite Ecur. cbn [self world trace].
  destruct (cursor_fetchall cur w2) as [[rows|e] w3];
    cbn [self world trace fst snd]; [|reflexivity].
  destruct (length rows =? 0)%nat; reflexivity.
Qed.

Lemma run_statement_trace (cur : Cursor) (sql : string) (is_select : bool)
    (st1 : St W) :
  exists res post,
    trace (snd (run_statement cur sql is_select st1))
    = post ++ EvExecute cur sql res :: trace st1
    /\ forallb runs_nothing post = true
    /\ self (snd (run_statement cur sql is_select st1)) = self st1.
Proof.
  unfold run_statement.
  destruct (cursor_execute cur sql (world st1)) as [[v|e] w2].
  - destruct is_select.
    + destruct (cursor_fetchall cur w2) as [[rows|e] w3]; cbn [snd trace self].
      * now exists (Ok v), [EvFetchall cur (Ok rows)].
      * now exists (Ok v),
          [EvLog (pg_utils.exec_error_msg sql e); EvFetchall cur (Err e)].
    + now exists (Ok v), [].
  - now exists (Err e), [EvLog (pg_utils.exec_error_msg sql e)].
Qed.

Lemma exec_sql_never_raises (fuel : nat) (sql : string) (is_select : bool)
    (st : St W) (e : exn) (s : St W) :
  pg_utils.exec_sql fuel sql is_select st <> Raise e s.
Proof.
  pose proof (exec_sql_unfold fuel sql is_select st) as Hu.
  destruct (pg_utils.get_db_connection fuel st) as [[] st1| |];
    [destruct Hu as (cur & _ & _ & _ & ->) | contradiction | rewrite Hu];
    discriminate.
Qed.

(** What [exec_sql] adds to the trace when it returns. *)
Lemma exec_sql_trace (fuel : nat) (sql : string) (is_select : bool)
    (st : St W) (r : pyobj) (st' : St W) :
  pg_utils.exec_sql fuel sql is_select st = Ret r st' ->
  exists cur res post tl,
    trace st' = post ++ EvExecute cur sql res :: tl
    /\ forallb runs_nothing post = true
    /\ checked_on cur tl = true
    /\ extends_by managing (trace st) tl
    /\ cursor (self st') = Some cur.
Proof.
  intros E. pose proof (exec_sql_unfold fuel sql is_select st) as Hu.
  destruct (pg_utils.get_db_connection fuel st) as [[] st1| |];
    [|contradiction | congruence].
  destruct Hu as (cur & Ecur & Hck & Hx & E').
  rewrite E' in E. injection E as _ <-.
  destruct (run_statement_trace cur sql is_select st1)
    as (res & post & Et & Hp & Hs).
  exists cur, res, post, (trace st1). rewrite Hs. auto.
Qed.

Lemma exec_sql_guarded (fuel : nat) (sql : string) (is_select : bool)
    (st : St W) :
  guarded (trace st) = true ->
  ends_guarded (pg_utils.exec_sql fuel sql is_select st).
Proof.
  intros Hg.
  destruct (pg_utils.exec_sql fuel sql is_select st) as [r st'|e s|] eqn:E;
    simpl; auto.
  - destruct (exec_sql_trace _ _ _ _ _ _ E)
      as (cur & res & post & tl & Et & Hp & Hck & Hx & _).
    rewrite Et.
    rewrite (runs_nothing_guarded (EvExecute cur sql res :: tl)
               (post ++ EvExecute cur sql res :: tl))
      by (exists post; auto).
    simpl. rewrite Hck, orb_true_r. simpl.
    now rewrite (managing_guarded _ _ Hx).
  - now apply exec_sql_never_raises in E.
Qed.

(** C2.  [exec_sql] never raises.  Once [get_db_connection] has returned,
    if [execute], or the [fetchall] of a read, raises [e], then [exec_sql]
    returns -2 and the latest message logged is the one that names the
    statement text and [e]. *)
Theorem exec_sql_error_sentinel (fuel : nat) (sql : string)
    (is_select : bool) (st : St W) :
  (forall e s, pg_utils.exec_sql fuel sql is_select st <> Raise e s)
  /\ (forall st1 cur e,
        pg_utils.get_db_connection fuel st = Ret tt st1 ->
        cursor (self st1) = Some cur ->
        statement_error cur sql is_select (world st1) = Some e ->
        exists st2,
          pg_utils.exec_sql fuel sql is_select st = Ret (PyInt (-2)) st2
          /\ logged (trace st2)
             = ("Error detected executing SQL: " ++ sql ++ ". "
                ++ exn_str e)%string :: logged (trace st1)).
Proof.
  split; [intros e s; apply exec_sql_never_raises|].
  intros st1 cur e Hc Ecur He.
  pose proof (exec_sql_unfold fuel sql is_select st) as Hu.
  rewrite Hc in Hu. destruct Hu as (cur' & Ecur' & _ & _ & ->).
  assert (cur' = cur) as -> by congruence.
  unfold statement_error in He. unfold run_statement.
  destruct (cursor_execute cur sql (world st1)) as [[v|e1] w2].
  - destruct is_select; [|discriminate].
    destruct (cursor_fetchall cur w2) as [[rows|e2] w3]; [discriminate|].
    injection He as ->. eexists; split; reflexivity.
  - injection He as ->. eexists; split; reflexivity.
Qed.

(** C3.  Once [get_db_connection] has returned, if a read statement runs
    and [fetchall] gives no row, [exec_sql] returns -1: not an empty list,
    and not the -2 of an execution error. *)
Theorem exec_sql_empty_sentinel (fuel : nat) (sql : string) (st st1 : St W)
    (cur : Cursor) (v : pyobj) (w2 w3 : W) :
  pg_utils.get_db_connection fuel st = Ret tt st1 ->
  cursor (self st1) = Some cur ->
  cursor_execute cur sql (world st1) = (Ok v, w2) ->
  cursor_fetchall cur w2 = (Ok [], w3) ->
  pg_utils.exec_sql fuel sql true st
  = Ret (PyInt (-1))
        (mkSt (self st1) w3
              (EvFetchall cur (Ok []) :: EvExecute cur sql (Ok v)
                 :: trace st1))
  /\ PyInt (-1) <> PyList []
  /\ PyInt (-1) <> PyInt (-2).
Proof.
  intros Hc Ecur Ex Ef.
  pose proof (exec_sql_unfold fuel sql true st) as Hu.
  rewrite Hc in Hu. destruct Hu as (cur' & Ecur' & _ & _ & ->).
  assert (cur' = cur) as -> by congruence.
  unfold run_statement. rewrite Ex, Ef.
  repeat split; discriminate.
Qed.
End Execute.

(** ** Teardown *)

Section Teardown.
Context {W : Type} `{Driver W}.

(** What [__del__] does in general.  It always returns normally and
    leaves the object as it was.  All it does is close calls and logging:
    the cursor's close is attempted whenever there is a cursor, and
    before the connection's; the connection's close is attempted whenever
    there is a connection, unless the cursor's close raised; every
    exception a close call raised is logged, and nothing else is. *)
Theorem del_never_raises (st : St W) :
  exists st',
    pg_utils.__del__ st = Ret tt st'
    /\ self st' = self st
    /\ exists d,
        trace st' = d ++ trace st
        /\ forallb closing d = true
        /\ cursor_before_conn d = true
        /\ logged d = map close_error_msg (close_errors d)
        /\ (forall cur, cursor (self st) = Some cur ->
            exists r, In (EvCursorClose cur r) d)
        /\ (forall c, conn (self st) = Some c ->
            (exists r, In (EvConnClose c r) d)
            \/ (exists cur e, In (EvCursorClose cur (Err e)) d)).
Proof.
  unfold pg_utils.__del__, try_except, bind, get_self, call, ret,
    logger_error, emit.
  destruct st as [o w tr]; cbn [self world trace].
  destruct (cursor o) as [cur|], (conn o) as [c|]; cbn [self world trace].
  - destruct (cursor_close cur w) as [[[]|e] w1]; cbn [self world trace].
    + destruct (conn_close c w1) as [[[]|e] w2]; cbn [self world trace];
        eexists; (split; [reflexivity|]); (split; [reflexivity|]);
        give_delta; repeat split; try reflexivity;
        intros x Hx; injection Hx as <-; simpl; eauto.
    + eexists; (split; [reflexivity|]); (split; [reflexivity|]);
        give_delta; repeat split; try reflexivity;
        intros x Hx; injection Hx as <-; simpl; eauto 6.
  - destruct (cursor_close cur w) as [[[]|e] w1]; cbn [self world trace];
      eexists; (split; [reflexivity|]); (split; [reflexivity|]);
      give_delta; repeat split; try reflexivity;
      intros x Hx; try discriminate; injection Hx as <-; simpl; eauto.
  - destruct (conn_close c w) as [[[]|e] w1]; cbn [self world trace];
      eexists; (split; [reflexivity|]); (split; [reflexivity|]);
      give_delta; repeat split; try reflexivity;
      intros x Hx; try discriminate; injection Hx as <-; simpl; eauto.
  - eexists; (split; [reflexivity|]); (split; [reflexivity|]);
      give_delta; repeat split; try reflexivity; intros x Hx; discriminate.
Qed.

(** C9.  The two close calls of [__del__] share one [try] statement.
    For an object that holds a cursor and a connection, when the cursor's
    close raises, [__del__] logs the exception and returns: the close of
    the connection is never attempted, and the connection stays open. *)
Theorem del_skips_connection_close (st : St W) (cur : Cursor) (c : Conn)
    (e : exn) (w1 : W) :
  cursor (self st) = Some cur ->
  conn (self st) = Some c ->
  cursor_close cur (world st) = (Err e, w1) ->
  exists st',
    pg_utils.__del__ st = Ret tt st'
    /\ st' = mkSt (self st) w1
               (EvLog (close_error_msg e) :: EvCursorClose cur (Err e)
                  :: trace st)
    /\ count_events is_conn_close (trace st')
       = count_events is_conn_close (trace st).
Proof.
  intros Ecur Ec Ex. eexists. split; [|split; [reflexivity|]].
  - unfold pg_utils.__del__, try_except, bind, get_self, call, ret,
      logger_error, emit.
    cbn [self world trace]. rewrite Ecur. cbn [self world trace].
    rewrite Ex. reflexivity.
  - reflexivity.
Qed.

Lemma del_runs_nothing (st : St W) :
  exists st',
    pg_utils.__del__ st = Ret tt st'
    /\ extends_by runs_nothing (trace st) (trace st').
Proof.
  unfold pg_utils.__del__, try_except, bind, get_self, call, ret,
    logger_error, emit.
  destruct st as [o w tr]; cbn [self world trace].
  destruct (cursor o) as [cur|]; cbn [self world trace].
  - destruct (cursor_close cur w) as [[[]|e] w1]; cbn [self world trace].
    + destruct (conn o) as [c|]; cbn [self world trace].
      * destruct (conn_close c w1) as [[[]|e] w2]; cbn [self world trace];
          eexists; (split; [reflexivity|]); cbn [trace];
          repeat (apply extends_by_cons; [reflexivity|]);
          apply extends_by_refl.
      * eexists; (split; [reflexivity|]); cbn [trace].
        apply extends_by_cons; [reflexivity | apply extends_by_refl].
    + eexists; (split; [reflexivity|]); cbn [trace].
      repeat (apply extends_by_cons; [reflexivity|]). apply extends_by_refl.
  - destruct (conn o) as [c|]; cbn [self world trace].
    + destruct (conn_close c w) as [[[]|e] w1]; cbn [self world trace];
        eexists; (split; [reflexivity|]); cbn [trace];
        repeat (apply extends_by_cons; [reflexivity|]);
        apply extends_by_refl.
    + eexists; (split; [reflexivity|]). apply extends_by_refl.
Qed.
End Teardown.

(** ** The manager's invariant *)

Section Invariant.
Context {W : Type} `{Driver W}.

Lemma check_db_connection_guarded (st : St W) :
  guarded (trace st) = true ->
  ends_guarded (pg_utils.check_db_connection st).
Proof.
  intros Hg.
  destruct (check_db_connection_spec st) as (v & st' & -> & _ & Hx & _).
  simpl. apply (extends_by_weaken _ _ _ _ housekeeping_managing) in Hx.
  now rewrite (managing_guarded _ _ Hx).
Qed.

Lemma get_db_connection_guarded (fuel : nat) (st : St W) :
  guarded (trace st) = true ->
  ends_guarded (pg_utils.get_db_connection fuel st).
Proof.
  intros Hg. pose proof (get_db_connection_spec fuel st) as Hc.
  destruct (pg_utils.get_db_connection fuel st) as [[] st'| |]; simpl; auto;
    try contradiction.
  destruct Hc as [_ Hx]. now rewrite (managing_guarded _ _ Hx).
Qed.

(** [get_terria_map_catalog_data] is [exec_sql] followed by the two
    subscripts. *)
Lemma get_terria_map_catalog_data_unfold (fuel : nat)
    (g e i r d : string) (l : option Z) (st : St W) :
  pg_utils.get_terria_map_catalog_data fuel g e i r d l st
  = match pg_utils.exec_sql fuel (pg_utils.catalog_sql g e i r d l) true st
    with
    | Ret res st1 =>
        match py_getitem res 0 with
        | Ok first_row =>
            match py_getitem first_row 0 with
            | Ok c => Ret c st1
            | Err x => Raise x st1
            end
        | Err x => Raise x st1
        end
    | Raise x s => Raise x s
    | Blocked => Blocked
    end.
Proof.
  unfold pg_utils.get_terria_map_catalog_data, bind, lift, ret, raise.
  destruct (pg_utils.exec_sql fuel _ true st) as [res st1| |]; auto.
  destruct (py_getitem res 0) as [fr|x]; auto.
  destruct (py_getitem fr 0); reflexivity.
Qed.

(** Whatever way [get_terria_map_catalog_data] ends, it ends in the state
    [exec_sql] returned in. *)
Lemma get_terria_map_catalog_data_state (fuel : nat)
    (g e i r d : string) (l : option Z) (st : St W) :
  match pg_utils.get_terria_map_catalog_data fuel g e i r d l st with
  | Ret _ s | Raise _ s =>
      exists res,
        pg_utils.exec_sql fuel (pg_utils.catalog_sql g e i r d l) true st
        = Ret res s
  | Blocked => True
  end.
Proof.
  rewrite get_terria_map_catalog_data_unfold.
  destruct (pg_utils.exec_sql fuel _ true st) as [res st1|x s|] eqn:E; auto.
  - destruct (py_getitem res 0) as [fr|x]; eauto.
    destruct (py_getitem fr 0); eauto.
  - now apply exec_sql_never_raises in E.
Qed.

(** C6.  Call a trace guarded when every statement in it other than the
    health check's own was run on a cursor whose health check had
    succeeded immediately before.  Every operation of the manager that
    ends, ends with a guarded trace if it started with one; and a
    returning [exec_sql] has run its statement exactly there: on the
    cursor the object holds, with that cursor's successful health check
    as the event just before, and with no statement run after it. *)
Theorem statements_run_on_checked_connection
    (environ : string -> option string) (st : St W) :
  guarded (trace st) = true ->
  ends_guarded (pg_utils.check_db_connection st)
  /\ (forall fuel, ends_guarded (pg_utils.get_db_connection fuel st))
  /\ (forall fuel dbname username password auto,
        ends_guarded
          (pg_utils.__init__ environ fuel dbname username password auto st))
  /\ ends_guarded (pg_utils.__del__ st)
  /\ (forall fuel sql is_select,
        ends_guarded (pg_utils.exec_sql fuel sql is_select st))
  /\ (forall fuel g e i r d l,
        ends_guarded
          (pg_utils.get_terria_map_catalog_data fuel g e i r d l st))
  /\ (forall fuel sql is_select r st',
        pg_utils.exec_sql fuel sql is_select st = Ret r st' ->
        exists cur res post tl,
          trace st' = post ++ EvExecute cur sql res :: tl
          /\ forallb runs_nothing post = true
          /\ checked_on cur tl = true
          /\ cursor (self st') = Some cur).
Proof.
  intros Hg. repeat split.
  - now apply check_db_connection_guarded.
  - intros fuel. now apply get_db_connection_guarded.
  - intros fuel dbname username password auto.
    unfold pg_utils.__init__, bind, set_self.
    match goal with
    | |- ends_guarded (pg_utils.get_db_connection fuel ?s) =>
        apply (get_db_connection_guarded fuel s)
    end.
    exact Hg.
  - destruct (del_runs_nothing st) as (st' & -> & Hx). simpl.
    now rewrite (runs_nothing_guarded _ _ Hx).
  - intros fuel sql is_select. now apply exec_sql_guarded.
  - intros fuel g e i r d l.
    pose proof (get_terria_map_catalog_data_state fuel g e i r d l st) as Hs.
    pose proof (exec_sql_guarded fuel (pg_utils.catalog_sql g e i r d l)
                  true st Hg) as He.
    destruct (pg_utils.get_terria_map_catalog_data fuel g e i r d l st);
      simpl; auto; destruct Hs as (res & Hs); rewrite Hs in He; exact He.
  - intros fuel sql is_select r st' E.
    destruct (exec_sql_trace _ _ _ _ _ _ E)
      as (cur & res & post & tl & Et & Hp & Hck & _ & Hcur).
    exists cur, res, post, tl. auto.
Qed.
End Invariant.

(** ** The catalog query *)

Section Catalog.
Context {W : Type} `{Driver W}.

Lemma exec_sql_select_result (fuel : nat) (sql : string) (st : St W)
    (res : pyobj) (st1 : St W) :
  pg_utils.exec_sql fuel sql true st = Ret res st1 ->
  res = PyInt (-1) \/ res = PyInt (-2)
  \/ exists first_row rest, res = PyList (PyTuple first_row :: rest).
Proof.
  intros E. pose proof (exec_sql_unfold fuel sql true st) as Hu.
  destruct (pg_utils.get_db_connection fuel st) as [[] s| |];
    [|contradiction | congruence].
  destruct Hu as (cur & _ & _ & _ & E'). rewrite E' in E.
  injection E as <- _. unfold run_statement.
  destruct (cursor_execute cur sql (world s)) as [[v|e] w2]; simpl; auto.
  destruct (cursor_fetchall cur w2) as [[[|first_row rest]|e] w3]; simpl;
    eauto.
Qed.

(** C1, as the code has it.  When [exec_sql] returns to
    [get_terria_map_catalog_data], what it returns is -1, -2 or a list
    whose first element is a row.  On an integer (so on either sentinel)
    the subscript raises [TypeError] and no value is returned; on a list
    whose first row has a first column, that column is returned. *)
Theorem get_terria_map_catalog_data_result (fuel : nat)
    (g e i r d : string) (l : option Z) (st : St W)
    (res : pyobj) (st1 : St W) :
  pg_utils.exec_sql fuel (pg_utils.catalog_sql g e i r d l) true st
  = Ret res st1 ->
  (res = PyInt (-1) \/ res = PyInt (-2)
   \/ exists first_row rest, res = PyList (PyTuple first_row :: rest))
  /\ (forall z, res = PyInt z ->
        pg_utils.get_terria_map_catalog_data fuel g e i r d l st
        = Raise (TypeError "'int' object is not subscriptable") st1)
  /\ (forall c cs rest, res = PyList (PyTuple (c :: cs) :: rest) ->
        pg_utils.get_terria_map_catalog_data fuel g e i r d l st
        = Ret c st1).
Proof.
  intros E. split; [eapply exec_sql_select_result; eassumption|].
  split; intros; subst res;
    rewrite get_terria_map_catalog_data_unfold, E; reflexivity.
Qed.
End Catalog.

(** ** The request handlers *)

Section Requests.
Context {W : Type} `{Driver W}.
Variable environ : string -> option string.
Variable server_dir : string.
Variable json_render_error : pyobj -> option exn.

Lemma init_spec (fuel : nat) (dbname username password : option string)
    (auto : bool) (st : St W) :
  match pg_utils.__init__ environ fuel dbname username password auto st with
  | Ret _ st' => extends_by managing (trace st) (trace st')
  | Raise _ _ => False
  | Blocked => True
  end.
Proof.
  unfold pg_utils.__init__, bind, set_self.
  match goal with
  | |- context [pg_utils.get_db_connection fuel ?s] =>
      pose proof (get_db_connection_spec fuel s) as Hc;
      destruct (pg_utils.get_db_connection fuel s)
  end; auto.
  now destruct Hc.
Qed.

(** Building the response raises or returns, in the state it started in. *)
Lemma new_JSONResponse_state (content : pyobj) (status_code : Z)
    (media_type : string) (s : St W) :
  match server.new_JSONResponse json_render_error content status_code
          media_type s with
  | Ret _ s' | Raise _ s' => s' = s
  | Blocked => False
  end.
Proof.
  unfold server.new_JSONResponse.
  destruct (json_render_error content); reflexivity.
Qed.

(** The handler of [GET /get_ui_data], case by case. *)
Lemma get_ui_data_unfold (fuel : nat) (g e i r d : option string)
    (l : option Z) (st : St W) :
  server.get_terria_map_catalog_data environ json_render_error fuel
    g e i r d l st
  = match pg_utils.__init__ environ fuel (server.apsviz_dbname environ)
            (server.apsviz_username environ) (server.apsviz_password environ)
            true st with
    | Ret _ st1 =>
        match pg_utils.get_terria_map_catalog_data fuel (server.prep g)
                (server.prep e) (server.prep i) (server.prep r)
                (server.prep d) l st1 with
        | Ret v s2 =>
            server.new_JSONResponse json_render_error v 200
              "application/json" s2
        | Raise _ s2 =>
            server.new_JSONResponse json_render_error
              (PyStr server.failure_message) 500 "application/json"
              (mkSt (self s2) (world s2)
                    (EvLog server.failure_message :: trace s2))
        | Blocked => Blocked
        end
    | Raise _ s =>
        server.new_JSONResponse json_render_error
          (PyStr server.failure_message) 500 "application/json"
          (mkSt (self s) (world s) (EvLog server.failure_message :: trace s))
    | Blocked => Blocked
    end.
Proof.
  unfold server.get_terria_map_catalog_data, try_except, bind at 1 2.
  destruct (pg_utils.__init__ _ _ _ _ _ _ st) as [[] st1| |]; try reflexivity.
  unfold bind at 1.
  destruct (pg_utils.get_terria_map_catalog_data _ _ _ _ _ _ _ st1);
    reflexivity.
Qed.

(** C8.  When [GET /get_ui_data] comes without any filter and without a
    limit and the handler ends, by returning its response or by raising
    while it builds it, the latest statement run is the call of the
    stored procedure with [null] for each of the five filters and 4 for
    the limit; all that ran between the start of the request and it are
    health checks. *)
Theorem get_ui_data_no_filters (fuel : nat) (file_name : option string)
    (st st' : St W) :
  (exists resp,
     server.GET_get_ui_data environ json_render_error fuel
       (server.mkQuery file_name None None None None None None) st
     = Ret resp st')
  \/ (exists x,
        server.GET_get_ui_data environ json_render_error fuel
          (server.mkQuery file_name None None None None None None) st
        = Raise x st') ->
  exists checks,
    executed (trace st')
    = "SELECT public.get_terria_data_json(_grid_type:=null, _event_type:=null, _instance_name:=null, _run_date:=null, _end_date:=null, _limit:=4)"%string
        :: checks ++ executed (trace st)
    /\ Forall (eq pg_utils.version_stmt) checks.
Proof.
  unfold server.GET_get_ui_data, server.Query; cbn [option_map
    server.q_grid_type server.q_event_type server.q_instance_name
    server.q_run_date server.q_end_date server.q_limit].
  rewrite get_ui_data_unfold. intros E.
  match type of E with
  | context [pg_utils.__init__ ?a ?b ?c ?d ?e ?f st] =>
      pose proof (init_spec b c d e f st) as Hi;
      destruct (pg_utils.__init__ a b c d e f st) as [[] st1| |];
      try contradiction;
      try (destruct E as [(resp & E) | (x & E)]; discriminate E)
  end.
  change (server.prep None) with "null"%string in E.
  pose proof (get_terria_map_catalog_data_state fuel "null" "null" "null"
                "null" "null" (Some 4%Z) st1) as Hs.
  assert (Hex : exists s res,
             pg_utils.exec_sql fuel unfiltered_call true st1 = Ret res s
             /\ executed (trace st') = executed (trace s)).
  { destruct (pg_utils.get_terria_map_catalog_data fuel _ _ _ _ _ _ st1)
      as [v s2|y s2|];
      try (destruct E as [(resp & E) | (x & E)]; discriminate E);
      destruct Hs as (res & Hs);
      match type of E with
      | context [server.new_JSONResponse _ ?c ?sc ?m ?s0] =>
          pose proof (new_JSONResponse_state c sc m s0) as Hn
      end;
      destruct E as [(resp & E) | (x & E)]; rewrite E in Hn; subst st';
      exists s2, res; split; auto. }
  destruct Hex as (s & res & Hs' & ->).
  destruct (exec_sql_trace _ _ _ _ _ _ Hs')
    as (cur & rs & post & tl & Et & Hp & _ & Hx & _).
  destruct (managing_executed _ _ (extends_by_trans _ _ _ _ Hi Hx))
    as (cs & Ecs & Fcs).
  exists cs. split; [|assumption].
  rewrite Et.
  rewrite (runs_nothing_executed (EvExecute cur unfiltered_call rs :: tl)
             (post ++ EvExecute cur unfiltered_call rs :: tl))
    by (exists post; auto).
  simpl. now rewrite Ecs.
Qed.

Lemma prep_blank (x : option string) :
  server.prep (blank_to_absent x) = server.prep x.
Proof. destruct x as [[|c s]|]; reflexivity. Qed.

(** C10.  A filter given as the empty string is prepared as [null], as an
    absent one is; so, at either endpoint, a request and the same request
    with its blank filters left out are handled alike in every world:
    same statements, same response, same final state. *)
Theorem blank_filter_is_omitted (fuel : nat) (q : server.query) :
  server.prep (Some EmptyString) = "null"%string
  /\ server.prep None = "null"%string
  /\ (forall st : St W,
        server.GET_get_ui_data environ json_render_error fuel (omit_blank q)
          st
        = server.GET_get_ui_data environ json_render_error fuel q st)
  /\ (forall st : St W,
        server.GET_get_ui_data_file environ server_dir fuel (omit_blank q) st
        = server.GET_get_ui_data_file environ server_dir fuel q st).
Proof.
  destruct q as [fn g e i r d l].
  assert (Hq : forall x,
             server.Query None (option_map Some (blank_to_absent x))
             = blank_to_absent (server.Query None (option_map Some x)))
    by (intros [[|c s]|]; reflexivity).
  repeat split; intros st;
    unfold server.GET_get_ui_data, server.GET_get_ui_data_file, omit_blank;
    cbn [server.q_file_name server.q_grid_type server.q_event_type
         server.q_instance_name server.q_run_date server.q_end_date
         server.q_limit];
    rewrite !Hq;
    unfold server.get_terria_map_catalog_data,
      server.get_terria_map_catalog_data_file;
    cbv zeta; rewrite !prep_blank; reflexivity.
Qed.

(** The response of [GET /get_ui_data_file] has status 200 whenever the
    handler returns, whatever happened in its [try] block. *)
Lemma get_ui_data_file_status (fuel : nat) (file_name : string)
    (g e i r d : option string) (l : option Z) (st : St W) :
  match server.get_terria_map_catalog_data_file environ server_dir fuel
          file_name g e i r d l st with
  | Ret resp _ =>
      server.file_status_code resp = 200%Z
      /\ server.file_media_type resp = "text/json"%string
      /\ server.file_path resp = server.os_path_join server_dir file_name
  | Raise _ _ => False
  | Blocked => True
  end.
Proof.
  unfold server.get_terria_map_catalog_data_file, bind at 1, try_except.
  match goal with
  | |- context [match ?body st with _ => _ end] => destruct (body st)
  end; simpl; auto.
Qed.
End Requests.

(** ** The model on concrete inputs *)

Section Concrete.

(** C4.  With a connection and a cursor in place, when the round trip
    raises nothing and [fetchone] gives no row, [check_db_connection]
    returns [None]: not a boolean. *)
Theorem check_db_connection_returns_None :
  pg_utils.check_db_connection (mock.connected scenario_no_version)
  = Ret PyNone
        (mkSt (self (mock.connected scenario_no_version)) scenario_no_version
              [EvFetchone 1 (Ok None);
               EvExecute 1 "SELECT version()" (Ok PyNone)])
  /\ PyNone <> PyBool false
  /\ PyNone <> PyBool true.
Proof. split; [vm_compute; reflexivity | split; discriminate]. Qed.

(** C7.  A request to [GET /get_ui_data_file] whose statement the server
    rejects: [exec_sql] logs the error and returns -2, the subscript
    raises, the handler logs that and writes no file, and the response it
    builds for the file of an earlier request has status 200. *)
Theorem get_ui_data_file_failure_has_status_200 :
  exists st',
    server.GET_get_ui_data_file mock.no_environ "/srv/app/src" 1 bare_request
      (mock.start scenario_rejecting)
    = Ret (server.mkFileResponse "/srv/app/src/apsviz.json" "apsviz.json"
             "text/json" 200) st'
    /\ logged (trace st')
       = ["'int' object is not subscriptable"%string;
          ("Error detected executing SQL: " ++ unfiltered_call
           ++ ". syntax error")%string]
    /\ mock.files (world st') = mock.files scenario_rejecting.
Proof.
  eexists. split; [vm_compute; reflexivity|].
  split; vm_compute; reflexivity.
Qed.

(** Against C1 as stated: with no row, and with a rejected statement,
    [exec_sql] returns the sentinel and [get_terria_map_catalog_data]
    raises instead of returning it. *)
Lemma catalog_sentinel_not_returned :
  (exists st1,
     pg_utils.exec_sql 1
       (pg_utils.catalog_sql "null" "null" "null" "null" "null" (Some 4%Z))
       true (mock.start (mock.up []))
     = Ret (PyInt (-1)) st1
     /\ pg_utils.get_terria_map_catalog_data 1 "null" "null" "null" "null"
          "null" (Some 4%Z) (mock.start (mock.up []))
        = Raise (TypeError "'int' object is not subscriptable") st1)
  /\ (exists st1,
        pg_utils.exec_sql 1
          (pg_utils.catalog_sql "null" "null" "null" "null" "null"
             (Some 4%Z))
          true (mock.start scenario_rejecting)
        = Ret (PyInt (-2)) st1
        /\ pg_utils.get_terria_map_catalog_data 1 "null" "null" "null"
             "null" "null" (Some 4%Z) (mock.start scenario_rejecting)
           = Raise (TypeError "'int' object is not subscriptable") st1)
  /\ (forall s,
        pg_utils.get_terria_map_catalog_data 1 "null" "null" "null" "null"
          "null" (Some 4%Z) (mock.start (mock.up []))
        <> Ret (PyInt (-1)) s)
  /\ (forall s,
        pg_utils.get_terria_map_catalog_data 1 "null" "null" "null" "null"
          "null" (Some 4%Z) (mock.start scenario_rejecting)
        <> Ret (PyInt (-2)) s).
Proof.
  split; [eexists; split; vm_compute; reflexivity|].
  split; [eexists; split; vm_compute; reflexivity|].
  split; intros s; vm_compute; discriminate.
Qed.

Lemma get_terria_map_catalog_data_result_witness :
  exists res st1,
    pg_utils.exec_sql 1
      (pg_utils.catalog_sql "'nc6b'" "null" "null" "null" "null" (Some 2%Z))
      true (mock.start (mock.up [[PyStr "[1, 2]"]]))
    = Ret res st1
    /\ res = PyList [PyTuple [PyStr "[1, 2]"]]
    /\ pg_utils.get_terria_map_catalog_data 1 "'nc6b'" "null" "null" "null"
         "null" (Some 2%Z) (mock.start (mock.up [[PyStr "[1, 2]"]]))
       = Ret (PyStr "[1, 2]") st1.
Proof.
  do 2 eexists. split; [vm_compute; reflexivity|]. split; [vm_compute; reflexivity|].
  eapply (get_terria_map_catalog_data_result 1 "'nc6b'" "null" "null" "null"
            "null" (Some 2%Z) (mock.start (mock.up [[PyStr "[1, 2]"]])));
    vm_compute; reflexivity.
Defined.

Lemma exec_sql_error_sentinel_witness :
  exists st1,
    pg_utils.get_db_connection 1 (mock.start scenario_rejecting) = Ret tt st1
    /\ cursor (self st1) = Some 1
    /\ statement_error 1 unfiltered_call true (world st1)
       = Some (DatabaseError "syntax error")
    /\ exists st2,
        pg_utils.exec_sql 1 unfiltered_call true (mock.start scenario_rejecting)
        = Ret (PyInt (-2)) st2
        /\ logged (trace st2)
           = ("Error detected executing SQL: " ++ unfiltered_call ++ ". "
              ++ exn_str (DatabaseError "syntax error"))%string
               :: logged (trace st1).
Proof.
  eexists. split; [vm_compute; reflexivity|]. split; [vm_compute; reflexivity|].
  split; [vm_compute; reflexivity|].
  apply (proj2 (exec_sql_error_sentinel 1 unfiltered_call true
                  (mock.start scenario_rejecting)) _ 1); vm_compute; reflexivity.
Defined.

Lemma exec_sql_empty_sentinel_witness :
  exists st1 v w2 w3,
    pg_utils.get_db_connection 1 (mock.start (mock.up [])) = Ret tt st1
    /\ cursor (self st1) = Some 1
    /\ cursor_execute 1 "SELECT 1 WHERE false" (world st1) = (Ok v, w2)
    /\ cursor_fetchall 1 w2 = (Ok [], w3)
    /\ pg_utils.exec_sql 1 "SELECT 1 WHERE false" true
         (mock.start (mock.up []))
       = Ret (PyInt (-1))
             (mkSt (self st1) w3
                   (EvFetchall 1 (Ok [])
                      :: EvExecute 1 "SELECT 1 WHERE false" (Ok v)
                      :: trace st1)).
Proof.
  do 4 eexists. split; [vm_compute; reflexivity|]. split; [vm_compute; reflexivity|].
  split; [vm_compute; reflexivity|]. split; [vm_compute; reflexivity|].
  refine (proj1 (exec_sql_empty_sentinel 1 "SELECT 1 WHERE false"
                   (mock.start (mock.up [])) _ 1 _ _ _ _ _ _ _));
    vm_compute; reflexivity.
Defined.

Lemma get_db_connection_terminates_healthy_witness :
  connects_after 2 (mock.start (mock.down_for 10 [])) = true
  /\ exists st',
      pg_utils.get_db_connection 3 (mock.start (mock.down_for 10 []))
      = Ret tt st'
      /\ pg_utils.get_db_connection 2 (mock.start (mock.down_for 10 []))
         = Blocked
      /\ just_checked st' = true
      /\ sleeps (trace st') = [5; 5].
Proof.
  split; [vm_compute; reflexivity|].
  destruct (get_db_connection_terminates_healthy
              (mock.start (mock.down_for 10 [])) 2)
    as (st' & Hret & Hblk & Hc & Hs & _); [vm_compute; reflexivity|].
  exists st'. split; [apply Hret; lia|]. split; [apply Hblk; lia|].
  split; [exact Hc | exact Hs].
Defined.

Lemma statements_run_on_checked_connection_witness :
  guarded (trace (mock.start (mock.up [[PyStr "[]"]]))) = true
  /\ ends_guarded
       (pg_utils.exec_sql 1 unfiltered_call true
          (mock.start (mock.up [[PyStr "[]"]]))).
Proof.
  split; [vm_compute; reflexivity|].
  apply (statements_run_on_checked_connection mock.no_environ
           (mock.start (mock.up [[PyStr "[]"]]))).
  reflexivity.
Defined.

Lemma get_ui_data_no_filters_witness :
  exists resp st',
    server.GET_get_ui_data mock.no_environ mock.render_error 1 bare_request
      (mock.start (mock.up [[PyStr "[]"]]))
    = Ret resp st'
    /\ server.json_status_code resp = 200%Z
    /\ exists checks,
        executed (trace st')
        = "SELECT public.get_terria_data_json(_grid_type:=null, _event_type:=null, _instance_name:=null, _run_date:=null, _end_date:=null, _limit:=4)"%string
            :: checks ++ executed (trace (mock.start (mock.up [[PyStr "[]"]])))
        /\ Forall (eq pg_utils.version_stmt) checks.
Proof.
  do 2 eexists. split; [vm_compute; reflexivity|]. split; [vm_compute; reflexivity|].
  apply (get_ui_data_no_filters mock.no_environ mock.render_error 1 None
           (mock.start (mock.up [[PyStr "[]"]]))).
  left. eexists. vm_compute; reflexivity.
Defined.

Lemma del_never_raises_witness :
  exists st',
    pg_utils.__del__
      (mock.connected (mock.mkDb 0 2 (Some mock.pg_version) [] [] true []))
    = Ret tt st'
    /\ self st'
       = self (mock.connected
                 (mock.mkDb 0 2 (Some mock.pg_version) [] [] true []))
    /\ trace st'
       = [EvLog
            "Error detected closing cursor or connection. connection already closed";
          EvCursorClose 1 (Err (DatabaseError "connection already closed"))].
Proof.
  destruct (del_never_raises
              (mock.connected
                 (mock.mkDb 0 2 (Some mock.pg_version) [] [] true [])))
    as (st' & E & Hs & _).
  exists st'. split; [exact E|]. split; [exact Hs|].
  vm_compute in E. injection E as <-. reflexivity.
Defined.

Lemma del_skips_connection_close_witness :
  cursor (self (mock.connected
                  (mock.mkDb 0 2 (Some mock.pg_version) [] [] true [])))
  = Some 1
  /\ conn (self (mock.connected
                   (mock.mkDb 0 2 (Some mock.pg_version) [] [] true [])))
     = Some 0
  /\ cursor_close 1
       (world (mock.connected
                 (mock.mkDb 0 2 (Some mock.pg_version) [] [] true [])))
     = (Err (DatabaseError "connection already closed"),
        mock.mkDb 0 2 (Some mock.pg_version) [] [] true [])
  /\ exists st',
      pg_utils.__del__
        (mock.connected (mock.mkDb 0 2 (Some mock.pg_version) [] [] true []))
      = Ret tt st'
      /\ st'
         = mkSt (mkPGUtils "host=db port=5432" (Some 0) (Some 1) true)
             (mock.mkDb 0 2 (Some mock.pg_version) [] [] true [])
             [EvLog
                "Error detected closing cursor or connection. connection already closed";
              EvCursorClose 1
                (Err (DatabaseError "connection already closed"))]
      /\ count_events is_conn_close (trace st') = 0.
Proof.
  split; [reflexivity|]. split; [reflexivity|]. split; [reflexivity|].
  apply (del_skips_connection_close
           (mock.connected
              (mock.mkDb 0 2 (Some mock.pg_version) [] [] true []))
           1 0 (DatabaseError "connection already closed")
           (mock.mkDb 0 2 (Some mock.pg_version) [] [] true []));
    reflexivity.
Defined.

(** For every [k] there is a world in which [get_db_connection] makes
    exactly [k] retries: a server that comes up after [5 * k] seconds. *)
Lemma outage_connects_after (k : nat) :
  forall (rows : list row) (tr : list event),
    connects_after k
      (mkSt (mkPGUtils "host=db port=5432" None None true)
            (mock.down_for (5 * k) rows) tr)
    = true.
Proof.
  induction k as [|k IH]; intros rows tr; [reflexivity|].
  replace (5 * S k) with (5 + 5 * k) by lia.
  remember (5 * k) as m eqn:Em.
  cbn -[Nat.sub]. unfold after_retry, mock.down_for in *.
  cbn -[Nat.sub]. unfold mock.pass_time. cbn -[Nat.sub Nat.mul].
  replace (S (S (S (S (S m)))) - 5) with m by lia.
  subst m. apply IH.
Qed.

Lemma retries_unbounded (k : nat) :
  exists st st' : St mock.db,
    pg_utils.get_db_connection k st = Blocked
    /\ pg_utils.get_db_connection (S k) st = Ret tt st'
    /\ sleeps (trace st') = repeat 5 k.
Proof.
  destruct (retry_loop_connects k (PyBool false)
              (mock.start (mock.down_for (5 * k) [])) eq_refl
              (outage_connects_after k [] []))
    as (st' & Hret & Hblk & _ & Hs & _).
  exists (mock.start (mock.down_for (5 * k) [])), st'.
  split; [apply Hblk; lia|]. split; [apply Hret; lia|].
  rewrite Hs. simpl. apply app_nil_r.
Qed.
End Concrete.

(** * Further properties *)

(** ** Counting events *)

Lemma count_events_app (p : event -> bool) (d tr : list event) :
  count_events p (d ++ tr) = count_events p d + count_events p tr.
Proof. unfold count_events. now rewrite filter_app, length_app. Qed.

Lemma count_events_none (P p : event -> bool) (d : list event) :
  (forall e, P e = true -> p e = false) ->
  forallb P d = true -> count_events p d = 0.
Proof.
  intros HPp. induction d as [|e d IH]; [reflexivity|].
  simpl. intros Hd. apply andb_true_iff in Hd as [He Hd].
  unfold count_events in *. simpl. rewrite (HPp e He). auto.
Qed.

Lemma extends_by_count (P p : event -> bool) (tr tr' : list event) :
  (forall e, P e = true -> p e = false) ->
  extends_by P tr tr' -> count_events p tr' = count_events p tr.
Proof.
  intros HPp (d & -> & Hd).
  now rewrite count_events_app, (count_events_none P p d HPp Hd).
Qed.

(** ** More on the health check *)

Section HealthCheckVerdict.
Context {W : Type} `{Driver W}.

(** The health check, case by case on what the driver answers. *)
Lemma check_db_connection_cases (st : St W) :
  pg_utils.check_db_connection st
  = match held_cursor (self st) with
    | None => Ret (PyBool false) st
    | Some cur =>
        match cursor_execute cur pg_utils.version_stmt (world st) with
        | (Err e, w1) =>
            Ret (PyBool false)
                (mkSt (self st) w1
                      (EvExecute cur pg_utils.version_stmt (Err e)
                         :: trace st))
        | (Ok v, w1) =>
            let (r, w2) := cursor_fetchone cur w1 in
            Ret (match r with
                 | Ok (Some (_ :: _)) => PyBool true
                 | Ok _ => PyNone
                 | Err _ => PyBool false
                 end)
                (mkSt (self st) w2
                      (EvFetchone cur r
                         :: EvExecute cur pg_utils.version_stmt (Ok v)
                         :: trace st))
        end
    end.
Proof.
  unfold pg_utils.check_db_connection, try_except, bind, get_self, call, ret,
    held_cursor.
  destruct st as [o w tr]; cbn [self world trace].
  destruct (conn o), (cursor o) as [cur|]; try reflexivity.
  cbn [self world trace].
  destruct (cursor_execute cur pg_utils.version_stmt w) as [[v|e] w1];
    cbn [self world trace]; [|reflexivity].
  destruct (cursor_fetchone cur w1) as [[[[|x xs]|]|e] w2]; reflexivity.
Qed.

(** X1.  [check_db_connection] never raises and never changes the
    object.  It answers [True] exactly when the object holds a connection
    and a cursor and the round trip on that cursor gives a row that is
    not empty.  Without a connection or without a cursor it answers
    [False] and calls nothing; when the round trip raises it answers
    [False]. *)
Theorem check_db_connection_verdict (st : St W) :
  exists v st',
    pg_utils.check_db_connection st = Ret v st'
    /\ self st' = self st
    /\ (v = PyBool true <->
        exists cur x xs,
          held_cursor (self st) = Some cur
          /\ round_trip cur (world st) = Ok (Some (x :: xs)))
    /\ (held_cursor (self st) = None -> v = PyBool false /\ st' = st)
    /\ (forall cur e,
          held_cursor (self st) = Some cur ->
          round_trip cur (world st) = Err e -> v = PyBool false).
Proof.
  rewrite check_db_connection_cases. unfold round_trip.
  destruct (held_cursor (self st)) as [cur|].
  - destruct (cursor_execute cur pg_utils.version_stmt (world st))
      as [[v|e] w1] eqn:Ex.
    + destruct (cursor_fetchone cur w1) as [[[[|x xs]|]|e] w2] eqn:Ef;
        do 2 eexists; (split; [reflexivity|]); (split; [reflexivity|]);
        (split; [split|split]);
        try (intros Hc; discriminate Hc);
        try (intros (c & y & ys & Hc & Hr); injection Hc as <-;
             rewrite Ex, Ef in Hr; discriminate Hr);
        try (intros c e' Hc Hr; injection Hc as <-;
             rewrite Ex, Ef in Hr; try discriminate Hr; reflexivity).
      * intros _. exists cur, x, xs. now rewrite Ex, Ef.
      * reflexivity.
    + do 2 eexists. split; [reflexivity|]. split; [reflexivity|].
      split; [split|split]; try (intros Hc; discriminate Hc).
      * intros (c & y & ys & Hc & Hr). injection Hc as <-.
        rewrite Ex in Hr. discriminate Hr.
      * reflexivity.
  - do 2 eexists. split; [reflexivity|]. split; [reflexivity|].
    split; [split|split]; try (intros Hc; discriminate Hc).
    + intros (c & y & ys & Hc & Hr). discriminate Hc.
    + auto.
    + intros c e Hc. discriminate Hc.
Qed.
End HealthCheckVerdict.

(** ** More on Ensure-Connected *)

Section EnsureConnectedMore.
Context {W : Type} `{Driver W}.

Lemma retry_loop_returns_after_success (fuel : nat) :
  forall (g : pyobj) (st st' : St W),
    truthy g = false ->
    pg_utils.retry_loop fuel g st = Ret tt st' ->
    exists n, n < fuel /\ connects_after n st = true.
Proof.
  induction fuel as [|fuel IH]; intros g st st' Hg; simpl; rewrite Hg;
    [discriminate|].
  unfold bind at 1.
  destruct (connect_attempt_spec st) as (p & st1 & E & _ & Hp).
  rewrite E. destruct p as [|g'].
  - intros _. exists 0. split; [lia|]. simpl. now rewrite E.
  - rewrite retry_step. intros Hr.
    destruct (IH g' (after_retry st1) st' Hp Hr) as (n & Hn & Hc).
    exists (S n). split; [lia|]. simpl. now rewrite E.
Qed.

(** X2.  [get_db_connection] returns only after an attempt that
    succeeded: if it returns within [fuel] passes, then for some
    [n < fuel] the first [n] passes ended at the retry notice and the
    next one returned. *)
Theorem get_db_connection_returns_only_after_success (fuel : nat)
    (st st' : St W) :
  pg_utils.get_db_connection fuel st = Ret tt st' ->
  exists n, n < fuel /\ connects_after n st = true.
Proof.
  unfold pg_utils.get_db_connection.
  now apply retry_loop_returns_after_success.
Qed.

Lemma connect_attempt_refused (st : St W) :
  (forall dsn w, exists e, fst (psycopg2_connect dsn w) = Err e) ->
  conn (self st) = None ->
  exists g st',
    pg_utils.connect_attempt st = Ret (pg_utils.Retry g) st'
    /\ truthy g = false /\ self st' = self st.
Proof.
  intros Hdown Hc. unfold pg_utils.connect_attempt, bind at 1.
  rewrite check_db_connection_cases. unfold held_cursor. rewrite Hc.
  unfold try_except, bind, get_self, call. cbn [truthy negb self world trace].
  destruct (Hdown (conn_str (self st)) (world st)) as (e & He).
  destruct (psycopg2_connect (conn_str (self st)) (world st)) as [[c|e'] w1];
    [discriminate He|].
  do 2 eexists. split; [reflexivity|]. split; reflexivity.
Qed.

Lemma retry_loop_refused (fuel : nat) :
  (forall dsn w, exists e, fst (psycopg2_connect dsn w) = Err e) ->
  forall (g : pyobj) (st : St W),
    truthy g = false -> conn (self st) = None ->
    pg_utils.retry_loop fuel g st = Blocked.
Proof.
  intros Hdown. induction fuel as [|fuel IH]; intros g st Hg Hc; simpl;
    rewrite Hg; [reflexivity|].
  unfold bind at 1.
  destruct (connect_attempt_refused st Hdown Hc) as (g' & st1 & E & Hg' & Hs).
  rewrite E, retry_step. apply IH; [assumption|].
  unfold after_retry; cbn [self]. now rewrite Hs.
Qed.

(** The health check adds only its own events. *)
Lemma check_db_connection_events (st : St W) :
  exists v st',
    pg_utils.check_db_connection st = Ret v st'
    /\ self st' = self st
    /\ extends_by check_event (trace st) (trace st').
Proof.
  rewrite check_db_connection_cases.
  destruct (held_cursor (self st)) as [cur|].
  - destruct (cursor_execute cur pg_utils.version_stmt (world st))
      as [[v|e] w1].
    + destruct (cursor_fetchone cur w1) as [r w2].
      do 2 eexists. split; [reflexivity|]. split; [reflexivity|].
      cbn [trace].
      do 2 (apply extends_by_cons; [reflexivity|]). apply extends_by_refl.
    + do 2 eexists. split; [reflexivity|]. split; [reflexivity|].
      cbn [trace].
      apply extends_by_cons; [reflexivity | apply extends_by_refl].
  - do 2 eexists. split; [reflexivity|]. split; [reflexivity|].
    apply extends_by_refl.
Qed.

Lemma check_event_opens_as (dsn : string) (ac : bool) (e : event) :
  check_event e = true -> opens_as dsn ac e = true.
Proof. destruct e; simpl; auto; discriminate. Qed.

Lemma opened_since_refl (st : St W) : opened_since st st.
Proof.
  split; [reflexivity|]. split; [reflexivity|].
  exists []. repeat split; auto.
Qed.

Lemma opened_since_trans (a b c : St W) :
  opened_since a b -> opened_since b c -> opened_since a c.
Proof.
  intros (Hs1 & Ha1 & d1 & Et1 & Hd1 & Hc1 & Hk1)
         (Hs2 & Ha2 & d2 & Et2 & Hd2 & Hc2 & Hk2).
  rewrite Hs1, Ha1 in Hd2. rewrite Hs1 in Hc2.
  split; [congruence|]. split; [congruence|].
  exists (d2 ++ d1). split; [now rewrite Et2, Et1, app_assoc|].
  split; [now rewrite forallb_app, Hd1, Hd2|].
  split.
  - destruct Hc2 as [Hc2 | (x & Hx & Hin)].
    + rewrite Hc2. destruct Hc1 as [Hc1 | (x & Hx & Hin)]; [now left|].
      right. exists x. split; [assumption|]. apply in_or_app. now right.
    + right. exists x. split; [assumption|]. apply in_or_app. now left.
  - destruct Hk2 as [Hk2 | (x & y & Hx & Hin)].
    + rewrite Hk2. destruct Hk1 as [Hk1 | (x & y & Hx & Hin)]; [now left|].
      right. exists x, y. split; [assumption|]. apply in_or_app. now right.
    + right. exists x, y. split; [assumption|]. apply in_or_app. now left.
Qed.

(** A step that leaves the object alone and adds events of the kind
    allowed. *)
Lemma opened_since_events (st st' : St W) :
  self st' = self st ->
  extends_by (opens_as (conn_str (self st)) (auto_commit (self st)))
    (trace st) (trace st') ->
  opened_since st st'.
Proof.
  intros Hs (d & Et & Hd). unfold opened_since. rewrite Hs.
  split; [reflexivity|]. split; [reflexivity|].
  exists d. auto.
Qed.

Lemma check_opened_since (st : St W) :
  exists v st',
    pg_utils.check_db_connection st = Ret v st' /\ opened_since st st'.
Proof.
  destruct (check_db_connection_events st) as (v & st' & E & Hs & Hx).
  exists v, st'. split; [assumption|].
  apply opened_since_events; [assumption|].
  eapply extends_by_weaken; [|exact Hx].
  intros e. apply check_event_opens_as.
Qed.

Lemma connect_attempt_opened_since (st : St W) :
  exists p st',
    pg_utils.connect_attempt st = Ret p st' /\ opened_since st st'.
Proof.
  unfold pg_utils.connect_attempt, bind at 1.
  destruct (check_opened_since st) as (v & st1 & E1 & H1).
  rewrite E1.
  unfold try_except, bind, get_self, call, pg_utils.set_conn,
    pg_utils.set_cursor, set_self, get_self, bind, ret.
  destruct (negb (truthy v)); [|do 2 eexists; split; [reflexivity|exact H1]].
  cbn [self world trace].
  destruct (psycopg2_connect (conn_str (self st1)) (world st1))
    as [[c|e] w1]; cbn [self world trace].
  2:{ do 2 eexists. split; [reflexivity|].
      eapply opened_since_trans; [exact H1|].
      apply opened_since_events; [reflexivity|]. cbn [trace].
      apply extends_by_cons; [apply String.eqb_refl | apply extends_by_refl]. }
  destruct (conn_set_autocommit c (auto_commit (self st1)) w1)
    as [[[]|e] w2];
    cbn [self world trace conn_str conn cursor auto_commit].
  2:{ do 2 eexists. split; [reflexivity|].
      eapply opened_since_trans; [exact H1|].
      split; [reflexivity|]. split; [reflexivity|].
      cbn [self trace conn_str conn cursor auto_commit].
      eexists [_; _].
      split; [reflexivity|].
      split; [cbn [forallb opens_as];
              now rewrite String.eqb_refl, Bool.eqb_reflx|].
      split; [right; exists c; split; [reflexivity|]; simpl; auto
             |now left]. }
  destruct (conn_cursor c w2) as [[cur|e] w3];
    cbn [self world trace conn_str conn cursor auto_commit].
  2:{ do 2 eexists. split; [reflexivity|].
      eapply opened_since_trans; [exact H1|].
      split; [reflexivity|]. split; [reflexivity|].
      cbn [self trace conn_str conn cursor auto_commit].
      eexists [_; _; _].
      split; [reflexivity|].
      split; [cbn [forallb opens_as managing housekeeping];
              now rewrite String.eqb_refl, Bool.eqb_reflx|].
      split; [right; exists c; split; [reflexivity|]; simpl; auto
             |now left]. }
  match goal with
  | |- context [pg_utils.check_db_connection ?s] =>
      destruct (check_opened_since s) as (v2 & st2 & E2 & H2);
      assert (Hmid : opened_since st1 s)
  end.
  { split; [reflexivity|]. split; [reflexivity|].
    cbn [self trace conn_str conn cursor auto_commit].
    eexists [_; _; _].
    split; [reflexivity|].
    split; [cbn [forallb opens_as managing housekeeping];
            now rewrite String.eqb_refl, Bool.eqb_reflx|].
    split; [right; exists c; split; [reflexivity|]; simpl; auto
           |right; exists c, cur; split; [reflexivity|]; simpl; auto]. }
  rewrite E2.
  assert (Hall : opened_since st st2)
    by (eapply opened_since_trans;
        [eapply opened_since_trans; [exact H1 | exact Hmid] | exact H2]).
  destruct (truthy v2); do 2 eexists; split; try reflexivity; exact Hall.
Qed.

Lemma after_retry_opened_since (st : St W) : opened_since st (after_retry st).
Proof.
  apply opened_since_events; [reflexivity|].
  unfold after_retry; cbn [trace].
  do 2 (apply extends_by_cons; [reflexivity|]). apply extends_by_refl.
Qed.

Lemma retry_loop_opened_since (fuel : nat) :
  forall (g : pyobj) (st st' : St W),
    pg_utils.retry_loop fuel g st = Ret tt st' -> opened_since st st'.
Proof.
  induction fuel as [|fuel IH]; intros g st st'; simpl;
    destruct (truthy g);
    try (intros E; injection E as <-; apply opened_since_refl);
    try discriminate.
  unfold bind at 1.
  destruct (connect_attempt_opened_since st) as (p & st1 & E & H1).
  rewrite E. destruct p as [|g'].
  - intros E'. injection E' as <-. exact H1.
  - rewrite retry_step. intros Hr.
    eapply opened_since_trans; [exact H1|].
    eapply opened_since_trans; [apply after_retry_opened_since|].
    eapply IH; eassumption.
Qed.
End EnsureConnectedMore.

Section EnsureConnectedExtras.
Context {W : Type} `{Driver W}.
Variable environ : string -> option string.
Variable server_dir : string.
Variable json_render_error : pyobj -> option exn.

(** X3.  When [get_db_connection] returns, the connection string and the
    commit mode of the object are what they were, and all it did was
    connection management in which every [connect] was given that
    connection string and every new connection had [autocommit] set to
    that commit mode. *)
Theorem get_db_connection_uses_stored_parameters (fuel : nat)
    (st st' : St W) :
  pg_utils.get_db_connection fuel st = Ret tt st' ->
  conn_str (self st') = conn_str (self st)
  /\ auto_commit (self st') = auto_commit (self st)
  /\ extends_by (opens_as (conn_str (self st)) (auto_commit (self st)))
       (trace st) (trace st').
Proof.
  intros E. apply retry_loop_opened_since in E.
  destruct E as (Hs & Ha & d & Et & Hd & _).
  repeat split; auto. exists d. auto.
Qed.

(** X4.  When [__init__] returns, the object has the connection string
    built from the environment and the arguments, the commit mode it was
    given, and a connection and a cursor that calls made during this
    construction returned: the connection by a [connect] with that
    connection string.  The latest event is a successful health check of
    that cursor. *)
Theorem init_opens_its_own_connection (fuel : nat)
    (dbname username password : option string) (auto : bool)
    (st st' : St W) :
  pg_utils.__init__ environ fuel dbname username password auto st
  = Ret tt st' ->
  exists c c' cur d,
    self st'
    = mkPGUtils
        ("host=" ++ fmt_opt (environ "ASGS_DB_HOST")
         ++ " port=" ++ fmt_opt (environ "ASGS_DB_PORT")
         ++ " dbname=" ++ fmt_opt dbname ++ " user=" ++ fmt_opt username
         ++ " password=" ++ fmt_opt password)%string
        (Some c) (Some cur) auto
    /\ trace st' = d ++ trace st
    /\ In (EvConnect (conn_str (self st')) (Ok c)) d
    /\ In (EvCursor c' (Ok cur)) d
    /\ just_checked st' = true.
Proof.
  unfold pg_utils.__init__, bind, set_self.
  match goal with
  | |- pg_utils.get_db_connection fuel ?s = _ -> _ => set (st0 := s)
  end.
  intros E. pose proof (get_db_connection_spec fuel st0) as Hc.
  rewrite E in Hc. destruct Hc as [Hc _].
  apply retry_loop_opened_since in E.
  destruct E as (Hs & Ha & d & Et & _ & Hconn & Hcur).
  unfold just_checked in Hc.
  destruct (conn (self st')) as [c|] eqn:Ec; [|discriminate].
  destruct (cursor (self st')) as [cur|] eqn:Ecur; [|discriminate].
  destruct Hconn as [Hconn | (c1 & Hc1 & Hin1)]; [discriminate|].
  destruct Hcur as [Hcur | (c' & cur1 & Hcur1 & Hin2)]; [discriminate|].
  injection Hc1 as <-. injection Hcur1 as <-.
  exists c, c', cur, d.
  split.
  { destruct (self st') as [s0 c0 k0 a0]; cbn in *; subst. reflexivity. }
  split; [exact Et|]. split; [now rewrite Hs|]. split; [assumption|].
  unfold just_checked. now rewrite Ec, Ecur.
Qed.

Lemma run_statement_events (cur : Cursor) (sql : string) (is_select : bool)
    (st1 : St W) :
  exists res post,
    trace (snd (run_statement cur sql is_select st1))
    = post ++ EvExecute cur sql res :: trace st1
    /\ forallb fetch_or_log post = true
    /\ self (snd (run_statement cur sql is_select st1)) = self st1.
Proof.
  unfold run_statement.
  destruct (cursor_execute cur sql (world st1)) as [[v|e] w2].
  - destruct is_select.
    + destruct (cursor_fetchall cur w2) as [[rows|e] w3]; cbn [snd trace self].
      * now exists (Ok v), [EvFetchall cur (Ok rows)].
      * now exists (Ok v),
          [EvLog (pg_utils.exec_error_msg sql e); EvFetchall cur (Err e)].
    + now exists (Ok v), [].
  - now exists (Err e), [EvLog (pg_utils.exec_error_msg sql e)].
Qed.

(** What a returning [exec_sql] did after [get_db_connection]. *)
Lemma exec_sql_events (fuel : nat) (sql : string) (is_select : bool)
    (st : St W) (r : pyobj) (st' : St W) :
  pg_utils.exec_sql fuel sql is_select st = Ret r st' ->
  exists st1 cur res post,
    pg_utils.get_db_connection fuel st = Ret tt st1
    /\ cursor (self st1) = Some cur
    /\ trace st' = post ++ EvExecute cur sql res :: trace st1
    /\ forallb fetch_or_log post = true
    /\ self st' = self st1.
Proof.
  intros E. pose proof (exec_sql_unfold fuel sql is_select st) as Hu.
  destruct (pg_utils.get_db_connection fuel st) as [[] st1| |];
    [|contradiction | congruence].
  destruct Hu as (cur & Ecur & _ & _ & E').
  rewrite E' in E. injection E as _ <-.
  destruct (run_statement_events cur sql is_select st1)
    as (res & post & Et & Hp & Hs).
  exists st1, cur, res, post. auto.
Qed.

Lemma count_events_skip (p : event -> bool) (e : event) (tr : list event) :
  p e = false -> count_events p (e :: tr) = count_events p tr.
Proof. intros He. unfold count_events. simpl. now rewrite He. Qed.

Lemma managing_not_close (e : event) :
  managing e = true -> is_close e = false.
Proof. destruct e; simpl; auto; discriminate. Qed.

Lemma fetch_or_log_not_close (e : event) :
  fetch_or_log e = true -> is_close e = false.
Proof. destruct e; simpl; auto; discriminate. Qed.



Lemma exec_sql_closes_nothing (fuel : nat) (sql : string) (is_select : bool)
    (st : St W) (r : pyobj) (st' : St W) :
  pg_utils.exec_sql fuel sql is_select st = Ret r st' ->
  count_events is_close (trace st') = count_events is_close (trace st).
Proof.
  intros E.
  destruct (exec_sql_events _ _ _ _ _ _ E)
    as (st1 & cur & res & post & Hc & _ & Et & Hp & _).
  pose proof (get_db_connection_spec fuel st) as Hm.
  rewrite Hc in Hm. destruct Hm as [_ Hm].
  rewrite Et, count_events_app,
    (count_events_none _ _ post fetch_or_log_not_close Hp),
    count_events_skip by reflexivity.
  simpl. now apply (extends_by_count managing is_close _ _ managing_not_close).
Qed.

(** X5.  Only [__del__] closes.  The health check, [get_db_connection],
    [exec_sql] and [get_terria_map_catalog_data] never close a cursor or a
    connection, whichever way they end: a connection that
    [get_db_connection] replaces is left open. *)
Theorem nothing_but_del_closes (st : St W) :
  (forall v st',
     pg_utils.check_db_connection st = Ret v st' ->
     count_events is_close (trace st') = count_events is_close (trace st))
  /\ (forall fuel st',
        pg_utils.get_db_connection fuel st = Ret tt st' ->
        count_events is_close (trace st') = count_events is_close (trace st))
  /\ (forall fuel sql is_select r st',
        pg_utils.exec_sql fuel sql is_select st = Ret r st' ->
        count_events is_close (trace st') = count_events is_close (trace st))
  /\ (forall fuel g e i r d l,
        match pg_utils.get_terria_map_catalog_data fuel g e i r d l st with
        | Ret _ st' | Raise _ st' =>
            count_events is_close (trace st')
            = count_events is_close (trace st)
        | Blocked => True
        end).
Proof.
  repeat split.
  - intros v st' E.
    destruct (check_db_connection_spec st) as (v' & s & E' & _ & Hx & _).
    rewrite E' in E. injection E as _ <-.
    apply (extends_by_weaken _ _ _ _ housekeeping_managing) in Hx.
    now apply (extends_by_count managing is_close _ _ managing_not_close).
  - intros fuel st' E. pose proof (get_db_connection_spec fuel st) as Hm.
    rewrite E in Hm. destruct Hm as [_ Hm].
    now apply (extends_by_count managing is_close _ _ managing_not_close).
  - intros fuel sql is_select r st'. apply exec_sql_closes_nothing.
  - intros fuel g e i r d l.
    pose proof (get_terria_map_catalog_data_state fuel g e i r d l st) as Hs.
    destruct (pg_utils.get_terria_map_catalog_data fuel g e i r d l st);
      auto; destruct Hs as (res & Hs);
      now apply exec_sql_closes_nothing in Hs.
Qed.


(** X7.  While the driver refuses every [connect], an object that holds
    no connection never gets out of [get_db_connection]: for every amount
    of fuel the retry loop is still running, and so are [exec_sql],
    [__init__] and both request handlers, which therefore answer
    nothing, not even a failure. *)
Theorem unreachable_database_blocks (fuel : nat) :
  (forall dsn w, exists e, fst (psycopg2_connect dsn w) = Err e) ->
  (forall st : St W,
     conn (self st) = None ->
     pg_utils.get_db_connection fuel st = Blocked)
  /\ (forall (st : St W) sql is_select,
        conn (self st) = None ->
        pg_utils.exec_sql fuel sql is_select st = Blocked)
  /\ (forall (st : St W) dbname username password auto,
        pg_utils.__init__ environ fuel dbname username password auto st
        = Blocked)
  /\ (forall (st : St W) q,
        server.GET_get_ui_data environ json_render_error fuel q st = Blocked)
  /\ (forall (st : St W) q,
        server.GET_get_ui_data_file environ server_dir fuel q st = Blocked).
Proof.
  intros Hdown.
  assert (Hget : forall st : St W,
             conn (self st) = None ->
             pg_utils.get_db_connection fuel st = Blocked)
    by (intros st Hc; now apply retry_loop_refused).
  assert (Hinit : forall (st : St W) dbname username password auto,
             pg_utils.__init__ environ fuel dbname username password auto st
             = Blocked)
    by (intros; unfold pg_utils.__init__, bind, set_self; now apply Hget).
  split; [exact Hget|]. split; [|split; [exact Hinit|split]].
  - intros st sql is_select Hc.
    pose proof (exec_sql_unfold fuel sql is_select st) as Hu.
    now rewrite (Hget st Hc) in Hu.
  - intros st q. unfold server.GET_get_ui_data.
    now rewrite get_ui_data_unfold, Hinit.
  - intros st q.
    unfold server.GET_get_ui_data_file,
      server.get_terria_map_catalog_data_file, bind at 1, try_except,
      bind at 1.
    now rewrite Hinit.
Qed.
End EnsureConnectedExtras.

(** ** More on Execute *)

Section ExecuteExtras.
Context {W : Type} `{Driver W}.

(** X8.  Once [get_db_connection] has returned, a read statement that
    runs and whose [fetchall] gives at least one row makes [exec_sql]
    return exactly those rows, in the order [fetchall] gave them: the
    element at each index of the list returned is the row at that index,
    as a tuple. *)
Theorem exec_sql_returns_rows_in_order (fuel : nat) (sql : string)
    (st st1 : St W) (cur : Cursor) (v : pyobj) (w2 w3 : W)
    (rows : list row) :
  pg_utils.get_db_connection fuel st = Ret tt st1 ->
  cursor (self st1) = Some cur ->
  cursor_execute cur sql (world st1) = (Ok v, w2) ->
  cursor_fetchall cur w2 = (Ok rows, w3) ->
  rows <> [] ->
  pg_utils.exec_sql fuel sql true st
  = Ret (PyList (map PyTuple rows))
        (mkSt (self st1) w3
              (EvFetchall cur (Ok rows) :: EvExecute cur sql (Ok v)
                 :: trace st1))
  /\ forall i,
      py_getitem (PyList (map PyTuple rows)) i
      = match nth_error rows i with
        | Some r => Ok (PyTuple r)
        | None => Err (IndexError "list index out of range")
        end.
Proof.
  intros Hc Ecur Ex Ef Hne.
  pose proof (exec_sql_unfold fuel sql true st) as Hu.
  rewrite Hc in Hu. destruct Hu as (cur' & Ecur' & _ & _ & ->).
  assert (cur' = cur) as -> by congruence.
  unfold run_statement. rewrite Ex, Ef.
  destruct rows as [|r0 rows]; [contradiction|].
  split; [reflexivity|].
  intros i. unfold py_getitem. rewrite nth_error_map. unfold row in *.
  destruct (nth_error (r0 :: rows) i); reflexivity.
Qed.

(** X9.  Once [get_db_connection] has returned, a statement that is not
    a read and that runs makes [exec_sql] return what [execute] returned;
    nothing is fetched and nothing is logged. *)
Theorem exec_sql_write_returns_outcome (fuel : nat) (sql : string)
    (st st1 : St W) (cur : Cursor) (v : pyobj) (w2 : W) :
  pg_utils.get_db_connection fuel st = Ret tt st1 ->
  cursor (self st1) = Some cur ->
  cursor_execute cur sql (world st1) = (Ok v, w2) ->
  pg_utils.exec_sql fuel sql false st
  = Ret v (mkSt (self st1) w2 (EvExecute cur sql (Ok v) :: trace st1)).
Proof.
  intros Hc Ecur Ex.
  pose proof (exec_sql_unfold fuel sql false st) as Hu.
  rewrite Hc in Hu. destruct Hu as (cur' & Ecur' & _ & _ & ->).
  assert (cur' = cur) as -> by congruence.
  unfold run_statement. now rewrite Ex.
Qed.
End ExecuteExtras.

(** ** More on the request handlers *)

Lemma string_length_append (s u : string) :
  String.length (s ++ u)%string = String.length s + String.length u.
Proof. induction s as [|c s IH]; simpl; auto. Qed.

Lemma string_append_inv_tail (u : string) :
  forall s t : string, (s ++ u = t ++ u)%string -> s = t.
Proof.
  induction s as [|a s IH]; intros [|b t] E; simpl in E.
  - reflexivity.
  - apply (f_equal String.length) in E. simpl in E.
    rewrite string_length_append in E. lia.
  - apply (f_equal String.length) in E. simpl in E.
    rewrite string_length_append in E. lia.
  - injection E as -> E. f_equal. now apply IH.
Qed.

(** X10.  [prep] gives the text [null] exactly for a filter that is
    absent or empty; any other value is put between single quotes as it
    is.  So two filters are prepared alike only if they are equal or both
    blank; in particular the value made of the four letters of [null] is
    not taken for an absent filter. *)
Theorem prep_null_iff_blank (x : option string) :
  (server.prep x = "null"%string <-> blank_to_absent x = None)
  /\ (forall s, x = Some s -> s <> EmptyString ->
        server.prep x = ("'" ++ s ++ "'")%string)
  /\ (forall y, server.prep x = server.prep y ->
        blank_to_absent x = blank_to_absent y).
Proof.
  assert (Hq : forall c s,
             server.prep (Some (String c s))
             = ("'" ++ String c s ++ "'")%string) by reflexivity.
  split; [|split].
  - destruct x as [[|c s]|]; simpl; split; try reflexivity; discriminate.
  - intros s -> Hs. destruct s as [|c s]; [contradiction | apply Hq].
  - intros y E.
    destruct x as [[|c s]|], y as [[|c' s']|]; try reflexivity;
      try rewrite !Hq in E; try discriminate E.
    simpl in E. injection E as Ec Es.
    apply string_append_inv_tail in Es. simpl. now subst.
Qed.

Section HandlerExtras.
Context {W : Type} `{Driver W}.
Variable environ : string -> option string.
Variable server_dir : string.

Lemma dumped_none (P : event -> bool) (d tr : list event) :
  (forall e, P e = true -> is_dump e = false) ->
  forallb P d = true -> dumped (d ++ tr) = dumped tr.
Proof.
  intros HP. induction d as [|e d IH]; [reflexivity|].
  simpl. intros Hd. apply andb_true_iff in Hd as [He Hd].
  specialize (HP e He). destruct e; simpl in *; auto; discriminate.
Qed.

Lemma managing_not_dump (e : event) : managing e = true -> is_dump e = false.
Proof. destruct e; simpl; auto; discriminate. Qed.

Lemma fetch_or_log_not_dump (e : event) :
  fetch_or_log e = true -> is_dump e = false.
Proof. destruct e; simpl; auto; discriminate. Qed.

Lemma managing_dumped (tr tr' : list event) :
  extends_by managing tr tr' -> dumped tr' = dumped tr.
Proof.
  intros (d & -> & Hd).
  apply (dumped_none managing); [apply managing_not_dump | exact Hd].
Qed.

Lemma exec_sql_dumps_nothing (fuel : nat) (sql : string) (is_select : bool)
    (st : St W) (r : pyobj) (st' : St W) :
  pg_utils.exec_sql fuel sql is_select st = Ret r st' ->
  dumped (trace st') = dumped (trace st).
Proof.
  intros E.
  destruct (exec_sql_events _ _ _ _ _ _ E)
    as (st1 & cur & res & post & Hc & _ & Et & Hp & _).
  pose proof (get_db_connection_spec fuel st) as Hm.
  rewrite Hc in Hm. destruct Hm as [_ Hm].
  rewrite Et, (dumped_none fetch_or_log post _ fetch_or_log_not_dump Hp).
  simpl. now apply managing_dumped.
Qed.
End HandlerExtras.

Section HandlerResponses.
Context {W : Type} `{Driver W}.
Variable environ : string -> option string.
Variable server_dir : string.
Variable json_render_error : pyobj -> option exn.

(** X11.  The handler of [GET /get_ui_data] is blocked, or the
    connection was set up and the call of the stored procedure was run.
    The content of the answer is then the first column of the first row,
    with status 200, when the call gave a row that has a column, and
    otherwise (no row, or an error while running the call) the fixed
    failure message, with status 500, logged.  The response is built
    after the [try] statement: when serialising that content raises, the
    exception leaves the handler; when it does not, the handler returns
    the response, of media type [application/json]. *)
Theorem get_ui_data_response (fuel : nat) (g e i r d : option string)
    (l : option Z) (st : St W) :
  server.get_terria_map_catalog_data environ json_render_error fuel
    g e i r d l st
  = Blocked
  \/ exists st0 res s,
      pg_utils.__init__ environ fuel (server.apsviz_dbname environ)
        (server.apsviz_username environ) (server.apsviz_password environ)
        true st
      = Ret tt st0
      /\ pg_utils.exec_sql fuel
           (pg_utils.catalog_sql (server.prep g) (server.prep e)
              (server.prep i) (server.prep r) (server.prep d) l)
           true st0
         = Ret res s
      /\ exists content status final,
          match res with
          | PyList (PyTuple (c :: _) :: _) =>
              content = c /\ status = 200%Z /\ final = s
          | _ =>
              content = PyStr server.failure_message /\ status = 500%Z
              /\ final = mkSt (self s) (world s)
                           (EvLog server.failure_message :: trace s)
          end
          /\ server.get_terria_map_catalog_data environ json_render_error
               fuel g e i r d l st
             = match json_render_error content with
               | Some x => Raise x final
               | None =>
                   Ret (server.mkJSONResponse content status
                          "application/json") final
               end.
Proof.
  rewrite get_ui_data_unfold.
  match goal with
  | |- context [pg_utils.__init__ ?a ?b ?c ?d ?e ?f st] =>
      pose proof (init_spec a b c d e f st) as Hi;
      destruct (pg_utils.__init__ a b c d e f st) as [[] st0| |];
      try contradiction; auto
  end.
  rewrite get_terria_map_catalog_data_unfold.
  destruct (pg_utils.exec_sql fuel _ true st0) as [res s|x s|] eqn:E; auto.
  2:{ now apply exec_sql_never_raises in E. }
  right. exists st0, res, s. split; [reflexivity|]. split; [exact E|].
  unfold server.new_JSONResponse, raise, ret.
  destruct (exec_sql_select_result _ _ _ _ _ E)
    as [-> | [-> | ([|c cs] & rest & ->)]];
    cbn [py_getitem nth_error];
    do 3 eexists; (split; [repeat split|]);
    match goal with
    | |- context [json_render_error ?c] => destruct (json_render_error c)
    end; reflexivity.
Qed.

(** The handler of [GET /get_ui_data_file], case by case. *)
Lemma get_ui_data_file_unfold (fuel : nat) (file_name : string)
    (g e i r d : option string) (l : option Z) (st : St W) :
  server.get_terria_map_catalog_data_file environ server_dir fuel file_name
    g e i r d l st
  = let path := server.os_path_join server_dir file_name in
    let resp := server.new_FileResponse path file_name "text/json" in
    match pg_utils.__init__ environ fuel (server.apsviz_dbname environ)
            (server.apsviz_username environ) (server.apsviz_password environ)
            true st with
    | Ret _ st0 =>
        match pg_utils.get_terria_map_catalog_data fuel (server.prep g)
                (server.prep e) (server.prep i) (server.prep r)
                (server.prep d) l st0 with
        | Ret v s =>
            let (w, w') := json_dump_to_file path v (world s) in
            Ret resp
                (mkSt (self s) w'
                      (match w with
                       | Ok _ => []
                       | Err x => [EvLog (exn_str x)]
                       end ++ EvDump path v w :: trace s))
        | Raise x s =>
            Ret resp (mkSt (self s) (world s) (EvLog (exn_str x) :: trace s))
        | Blocked => Blocked
        end
    | Raise x s =>
        Ret resp (mkSt (self s) (world s) (EvLog (exn_str x) :: trace s))
    | Blocked => Blocked
    end.
Proof.
  unfold server.get_terria_map_catalog_data_file, try_except, bind at 1 2.
  destruct (pg_utils.__init__ _ _ _ _ _ _ st) as [[] st0| |]; try reflexivity.
  unfold bind at 1.
  destruct (pg_utils.get_terria_map_catalog_data _ _ _ _ _ _ _ st0)
    as [v s|x s|]; try reflexivity.
  unfold bind, call, ret, logger_error, emit.
  destruct (json_dump_to_file _ v (world s)) as [[[]|x] w']; reflexivity.
Qed.

(** X12.  The handler of [GET /get_ui_data_file] never raises and always
    answers with the same response: the path made of the server directory
    and the file name, that file name, media type [text/json].  It writes
    at most once, and only after the catalog query returned a value: that
    value, to that path; a write that raises is logged.  When the query
    raised, the exception is logged and nothing is written. *)
Theorem get_ui_data_file_writes_only_on_success (fuel : nat)
    (file_name : string) (g e i r d : option string) (l : option Z)
    (st : St W) :
  match server.get_terria_map_catalog_data_file environ server_dir fuel
          file_name g e i r d l st with
  | Raise _ _ => False
  | Blocked => True
  | Ret resp st' =>
      resp = server.new_FileResponse
               (server.os_path_join server_dir file_name) file_name
               "text/json"
      /\ exists st0,
          pg_utils.__init__ environ fuel (server.apsviz_dbname environ)
            (server.apsviz_username environ) (server.apsviz_password environ)
            true st
          = Ret tt st0
          /\ match pg_utils.get_terria_map_catalog_data fuel (server.prep g)
                     (server.prep e) (server.prep i) (server.prep r)
                     (server.prep d) l st0 with
             | Ret c s =>
                 dumped (trace st')
                 = (server.os_path_join server_dir file_name, c)
                     :: dumped (trace st)
                 /\ exists w,
                     trace st'
                     = match w with
                       | Ok _ => []
                       | Err x => [EvLog (exn_str x)]
                       end
                       ++ EvDump (server.os_path_join server_dir file_name)
                            c w :: trace s
             | Raise x s =>
                 dumped (trace st') = dumped (trace st)
                 /\ trace st' = EvLog (exn_str x) :: trace s
             | Blocked => False
             end
  end.
Proof.
  rewrite get_ui_data_file_unfold. cbv zeta.
  match goal with
  | |- context [pg_utils.__init__ ?a ?b ?c ?d ?e ?f st] =>
      pose proof (init_spec a b c d e f st) as Hi;
      destruct (pg_utils.__init__ a b c d e f st) as [[] st0| |];
      try contradiction; auto
  end.
  apply managing_dumped in Hi.
  pose proof (get_terria_map_catalog_data_state fuel (server.prep g)
                (server.prep e) (server.prep i) (server.prep r)
                (server.prep d) l st0) as Hs.
  destruct (pg_utils.get_terria_map_catalog_data fuel _ _ _ _ _ _ st0)
    as [c s|x s|] eqn:Eg; auto.
  - destruct Hs as (res & Hs). apply exec_sql_dumps_nothing in Hs.
    destruct (json_dump_to_file _ c (world s)) as [w w'].
    split; [reflexivity|]. exists st0. split; [reflexivity|].
    rewrite Eg. cbn [trace]. split; [|exists w; reflexivity].
    destruct w; cbn; now rewrite Hs, Hi.
  - destruct Hs as (res & Hs). apply exec_sql_dumps_nothing in Hs.
    split; [reflexivity|]. exists st0. split; [reflexivity|].
    rewrite Eg. cbn. now rewrite Hs, Hi.
Qed.
End HandlerResponses.

(** ** The further properties on concrete inputs *)

Section ConcreteExtras.

Lemma check_db_connection_verdict_witness :
  exists st',
    pg_utils.check_db_connection (mock.connected (mock.up []))
    = Ret (PyBool true) st'
    /\ self st' = self (mock.connected (mock.up [])).
Proof.
  destruct (check_db_connection_verdict (mock.connected (mock.up [])))
    as (v & st' & E & Hs & Hiff & _).
  assert (Hv : v = PyBool true).
  { apply Hiff. exists 1, (PyStr "PostgreSQL 14.5"), [].
    split; vm_compute; reflexivity. }
  subst v. exists st'. split; assumption.
Defined.

Lemma get_db_connection_returns_only_after_success_witness :
  exists st',
    pg_utils.get_db_connection 3 (mock.start (mock.down_for 10 []))
    = Ret tt st'
    /\ exists n,
        n < 3 /\ connects_after n (mock.start (mock.down_for 10 [])) = true.
Proof.
  eexists. split; [vm_compute; reflexivity|].
  eapply get_db_connection_returns_only_after_success.
  vm_compute; reflexivity.
Defined.

Lemma get_db_connection_uses_stored_parameters_witness :
  exists st',
    pg_utils.get_db_connection 3 (mock.start (mock.down_for 10 []))
    = Ret tt st'
    /\ conn_str (self st') = "host=db port=5432"%string
    /\ auto_commit (self st') = true
    /\ extends_by (opens_as "host=db port=5432" true) [] (trace st').
Proof.
  eexists. split; [vm_compute; reflexivity|].
  apply (get_db_connection_uses_stored_parameters 3
           (mock.start (mock.down_for 10 []))).
  vm_compute; reflexivity.
Defined.

Lemma init_opens_its_own_connection_witness :
  exists st',
    pg_utils.__init__ mock.no_environ 2 (Some "apsviz"%string)
      (Some "reader"%string) (Some "secret"%string) false
      (mock.connected (mock.down_for 5 []))
    = Ret tt st'
    /\ exists c c' cur d,
        self st'
        = mkPGUtils
            "host=None port=None dbname=apsviz user=reader password=secret"
            (Some c) (Some cur) false
        /\ trace st' = d ++ []
        /\ In (EvConnect (conn_str (self st')) (Ok c)) d
        /\ In (EvCursor c' (Ok cur)) d
        /\ just_checked st' = true.
Proof.
  eexists. split; [vm_compute; reflexivity|].
  apply (init_opens_its_own_connection mock.no_environ 2
           (Some "apsviz"%string) (Some "reader"%string)
           (Some "secret"%string) false
           (mock.connected (mock.down_for 5 []))).
  vm_compute; reflexivity.
Defined.

Lemma nothing_but_del_closes_witness :
  exists r st',
    pg_utils.exec_sql 1 "SELECT 1" true (mock.start (mock.up []))
    = Ret r st'
    /\ count_events is_close (trace st') = 0.
Proof.
  do 2 eexists. split; [vm_compute; reflexivity|].
  refine (proj1 (proj2 (proj2
            (nothing_but_del_closes (mock.start (mock.up [])))))
            1 "SELECT 1"%string true _ _ _).
  vm_compute; reflexivity.
Defined.


Lemma unreachable_database_blocks_witness :
  (forall dsn (w : unit), exists e, fst (psycopg2_connect dsn w) = Err e)
  /\ server.GET_get_ui_data mock.no_environ mock.render_error 7 bare_request
       unreachable.start
     = Blocked
  /\ server.GET_get_ui_data_file mock.no_environ "/srv/app/src" 7
       bare_request unreachable.start
     = Blocked.
Proof.
  assert (Hd : forall dsn (w : unit),
             exists e, fst (psycopg2_connect dsn w) = Err e)
    by (intros; eexists; reflexivity).
  split; [exact Hd|].
  destruct (unreachable_database_blocks mock.no_environ "/srv/app/src"
              mock.render_error 7 Hd)
    as (_ & _ & _ & H1 & H2).
  split; [apply H1 | apply H2].
Defined.

Lemma exec_sql_returns_rows_in_order_witness :
  exists st1 v w2 w3,
    pg_utils.get_db_connection 1
      (mock.start (mock.up [[PyStr "a"]; [PyStr "b"]]))
    = Ret tt st1
    /\ cursor (self st1) = Some 1
    /\ cursor_execute 1 "SELECT name FROM t" (world st1) = (Ok v, w2)
    /\ cursor_fetchall 1 w2 = (Ok [[PyStr "a"]; [PyStr "b"]], w3)
    /\ [[PyStr "a"]; [PyStr "b"]] <> []
    /\ pg_utils.exec_sql 1 "SELECT name FROM t" true
         (mock.start (mock.up [[PyStr "a"]; [PyStr "b"]]))
       = Ret (PyList [PyTuple [PyStr "a"]; PyTuple [PyStr "b"]])
             (mkSt (self st1) w3
                   (EvFetchall 1 (Ok [[PyStr "a"]; [PyStr "b"]])
                      :: EvExecute 1 "SELECT name FROM t" (Ok v)
                      :: trace st1)).
Proof.
  do 4 eexists. split; [vm_compute; reflexivity|].
  split; [vm_compute; reflexivity|]. split; [vm_compute; reflexivity|].
  split; [vm_compute; reflexivity|]. split; [discriminate|].
  refine (proj1 (exec_sql_returns_rows_in_order 1 "SELECT name FROM t"
                   (mock.start (mock.up [[PyStr "a"]; [PyStr "b"]]))
                   _ 1 _ _ _ [[PyStr "a"]; [PyStr "b"]] _ _ _ _ _));
    try discriminate; vm_compute; reflexivity.
Defined.

Lemma exec_sql_write_returns_outcome_witness :
  exists st1 v w2,
    pg_utils.get_db_connection 1 (mock.start (mock.up [])) = Ret tt st1
    /\ cursor (self st1) = Some 1
    /\ cursor_execute 1 "DELETE FROM t" (world st1) = (Ok v, w2)
    /\ pg_utils.exec_sql 1 "DELETE FROM t" false (mock.start (mock.up []))
       = Ret v (mkSt (self st1) w2
                     (EvExecute 1 "DELETE FROM t" (Ok v) :: trace st1)).
Proof.
  do 3 eexists. split; [vm_compute; reflexivity|].
  split; [vm_compute; reflexivity|]. split; [vm_compute; reflexivity|].
  refine (exec_sql_write_returns_outcome 1 "DELETE FROM t"
            (mock.start (mock.up [])) _ 1 _ _ _ _ _);
    vm_compute; reflexivity.
Defined.

Lemma prep_null_iff_blank_witness :
  server.prep (Some "null"%string) = "'null'"%string
  /\ server.prep (Some "null"%string) <> server.prep None.
Proof.
  split.
  - apply (proj1 (proj2 (prep_null_iff_blank (Some "null"%string)))
             "null"%string eq_refl).
    discriminate.
  - intros E.
    apply (proj2 (proj2 (prep_null_iff_blank (Some "null"%string)))) in E.
    discriminate E.
Defined.

(** A first column that the serialiser refuses: the handler of
    [GET /get_ui_data] raises after its [try] statement, with the query
    run and nothing logged by the handler. *)
Lemma get_ui_data_raises_on_decimal :
  exists st',
    server.GET_get_ui_data mock.no_environ mock.render_error 1 bare_request
      (mock.start (mock.up [[PyObject "Decimal" true]]))
    = Raise (TypeError "Object of type Decimal is not JSON serializable") st'
    /\ logged (trace st') = []
    /\ executed (trace st')
       = [unfiltered_call; pg_utils.version_stmt; pg_utils.version_stmt].
Proof.
  eexists. split; [vm_compute; reflexivity|].
  split; vm_compute; reflexivity.
Qed.
End ConcreteExtras.
